(** * Resume refiner: skill analyzer and recommendation composer

  A shallow embedding of [backend/skill_analyzer.py] (class
  [SkillAnalyzer]) and of the two pure helpers of [backend/app.py]
  ([get_enhanced_llm_analysis] and [generate_recommendations]).

  Conventions of the embedding:
  - a Python [str] is a [string]; characters are read as ASCII, so
    [str.lower] maps [A-Z] to [a-z] and the word class of the regex
    anchor [\b] is [[A-Za-z0-9_]]; the statements that describe which
    occurrences of a skill the regex finds are for texts that are
    ASCII ([PyStr.isascii]);
  - a Python [dict] is an association list in insertion order;
  - a Python [set] is a duplicate-free list; the code only ever sorts
    a set, measures it or tests membership in it, so the order in which
    a set is enumerated is not observable;
  - a Python number that is divided or compared with a threshold is a
    rational ([Q]); the percentage that [analyze_skills] stores is also
    given as the binary64 number Python computes ([Binary64]).

  Further down: [get_skill_match_percentage], [allowed_file], the
  input checks of [analyze_resume] and the basic enhancement of
  [enhance_resume], with what they need of [str.strip], [str.rsplit]
  and [round]. *)

From Stdlib Require Import List String Ascii Bool Arith NArith ZArith QArith.
From Stdlib Require Import Lia Permutation Sorted DecimalString.
From Stdlib Require Import SpecFloat Qabs.
Import ListNotations.

Open Scope string_scope.
Open Scope list_scope.

(* ================================================================= *)
(** ** Python strings *)

Module PyStr.

Definition in_range (lo hi c : ascii) : bool :=
  ((N_of_ascii lo <=? N_of_ascii c) && (N_of_ascii c <=? N_of_ascii hi))%N.

Definition ascii_lower (c : ascii) : ascii :=
  if in_range "A" "Z" c then ascii_of_N (N_of_ascii c + 32) else c.

(** [s.lower()] *)
Fixpoint lower (s : string) : string :=
  match s with
  | EmptyString => EmptyString
  | String c s' => String (ascii_lower c) (lower s')
  end.

(** The class [\w]: letters, digits and the underscore. *)
Definition is_word (c : ascii) : bool :=
  in_range "a" "z" c || in_range "A" "Z" c || in_range "0" "9" c
  || Ascii.eqb c "_".

(** [s.isascii()]: every character is below 128.  On such a string
    [lower] and [is_word] are Python's [str.lower] and the class [\w]
    of [re]. *)
Fixpoint isascii (s : string) : bool :=
  match s with
  | EmptyString => true
  | String c s' => (N_of_ascii c <? 128)%N && isascii s'
  end.

(** [s.startswith(p)] *)
Fixpoint startswith (p s : string) : bool :=
  match p, s with
  | EmptyString, _ => true
  | String a p', String b s' => Ascii.eqb a b && startswith p' s'
  | String _ _, EmptyString => false
  end.

(** [needle in hay] *)
Fixpoint contains (needle hay : string) : bool :=
  startswith needle hay
  || match hay with
     | EmptyString => false
     | String _ hay' => contains needle hay'
     end.

(** [sep.join(parts)] *)
Fixpoint join (sep : string) (parts : list string) : string :=
  match parts with
  | [] => ""
  | [p] => p
  | p :: rest => (p ++ sep ++ join sep rest)%string
  end.

(** [s.replace(a, b)] for one-character [a] and [b]. *)
Fixpoint replace_char (a b : ascii) (s : string) : string :=
  match s with
  | EmptyString => EmptyString
  | String c s' =>
      String (if Ascii.eqb c a then b else c) (replace_char a b s')
  end.

(** [str(n)] for a non-negative integer. *)
Definition of_nat (n : nat) : string :=
  NilZero.string_of_uint (Nat.to_uint n).

(** [bool(s)]: a string is truthy unless it is empty. *)
Definition truthy (s : string) : bool :=
  match s with EmptyString => false | String _ _ => true end.

(** Insertion of a string in a list that is ordered by code points;
    [sorted] is the only ordered arrangement of its argument, so the
    sorting algorithm itself is not observable. *)
Fixpoint insert_sorted (x : string) (l : list string) : list string :=
  match l with
  | [] => [x]
  | y :: l' => if String.leb x y then x :: l else y :: insert_sorted x l'
  end.

(** The order of [sorted]: code point by code point. *)
Definition le (a b : string) : Prop := String.leb a b = true.

Fixpoint sorted (l : list string) : list string :=
  match l with
  | [] => []
  | x :: l' => insert_sorted x (sorted l')
  end.

End PyStr.

(* ================================================================= *)
(** ** The regex [\b<literal>\b] *)

Module Regex.

Definition word_at (c : option ascii) : bool :=
  match c with Some a => PyStr.is_word a | None => false end.

Definition head (s : string) : option ascii :=
  match s with EmptyString => None | String c _ => Some c end.

(** [\b] holds between the character before the cursor and the one
    after it when exactly one of them is a word character; the two
    ends of the text count as non-word. *)
Definition boundary (prev : option ascii) (rest : string) : bool :=
  xorb (word_at prev) (word_at (head rest)).

(** Match the literal [pat] at the cursor; on success give the last
    character consumed and the remaining text. *)
Fixpoint literal (prev : option ascii) (pat text : string)
  : option (option ascii * string) :=
  match pat with
  | EmptyString => Some (prev, text)
  | String a pat' =>
      match text with
      | EmptyString => None
      | String b text' =>
          if Ascii.eqb a b then literal (Some b) pat' text' else None
      end
  end.

(** [\b + re.escape(pat) + \b] anchored at the cursor. *)
Definition match_here (prev : option ascii) (pat text : string) : bool :=
  boundary prev text
  && match literal prev pat text with
     | Some (last, rest) => boundary last rest
     | None => false
     end.

Fixpoint search_from (prev : option ascii) (pat text : string) : bool :=
  match_here prev pat text
  || match text with
     | EmptyString => false
     | String c text' => search_from (Some c) pat text'
     end.

(** [re.search(r'\b' + re.escape(pat) + r'\b', text)] as a truth value. *)
Definition search_word (pat text : string) : bool :=
  search_from None pat text.

End Regex.

(* ================================================================= *)
(** ** Python dictionaries and sets *)

Module PyDict.

Definition dict (V : Type) := list (string * V).

(** [d.get(k)] *)
Fixpoint get {V} (k : string) (d : dict V) : option V :=
  match d with
  | [] => None
  | (k', v) :: d' => if String.eqb k k' then Some v else get k d'
  end.

(** [d.get(k, dflt)] *)
Definition get_default {V} (k : string) (dflt : V) (d : dict V) : V :=
  match get k d with Some v => v | None => dflt end.

(** [k in d] *)
Definition mem {V} (k : string) (d : dict V) : bool :=
  match get k d with Some _ => true | None => false end.

(** [d[k].append(x)] on a [defaultdict(list)]: a missing key is
    created at the end of the dictionary. *)
Fixpoint append_at {A} (k : string) (x : A) (d : dict (list A))
  : dict (list A) :=
  match d with
  | [] => [(k, [x])]
  | (k', l) :: d' =>
      if String.eqb k k' then (k', l ++ [x]) :: d'
      else (k', l) :: append_at k x d'
  end.

(** [d[k] = v]: an existing key keeps its place. *)
Fixpoint set {V} (k : string) (v : V) (d : dict V) : dict V :=
  match d with
  | [] => [(k, v)]
  | (k', v') :: d' =>
      if String.eqb k k' then (k', v) :: d' else (k', v') :: set k v d'
  end.

Definition keys {V} (d : dict V) : list string := map fst d.
Definition values {V} (d : dict V) : list V := map snd d.

(** [{k: f(v) for k, v in d.items()}] *)
Definition map_values {V W} (f : V -> W) (d : dict V) : dict W :=
  map (fun kv => (fst kv, f (snd kv))) d.

End PyDict.

Module PySet.

Definition mem (x : string) (s : list string) : bool :=
  existsb (String.eqb x) s.

(** [set(l)] *)
Definition of_list (l : list string) : list string :=
  nodup string_dec l.

(** [a & b] *)
Definition inter (a b : list string) : list string :=
  filter (fun x => mem x b) a.

(** [a - b] *)
Definition diff (a b : list string) : list string :=
  filter (fun x => negb (mem x b)) a.

(** [a | b] *)
Definition union (a b : list string) : list string :=
  nodup string_dec (a ++ b).

(** [set().union( *sets )] *)
Definition union_all (sets : list (list string)) : list string :=
  fold_left union sets [].

End PySet.

(* ================================================================= *)
(** ** Python floats *)

(** A Python [float] is an IEEE 754 binary64 number: 53 bits of
    mantissa, results rounded to nearest, ties to even. *)
Module Binary64.

Definition prec : Z := 53.
Definition emax : Z := 1024.

(** [float(n)] for an integer; exact below [2^53]. *)
Definition of_nat (n : nat) : spec_float :=
  binary_normalize prec emax (Z.of_nat n) 0 false.

(** [x / y] and [x * y] on floats; [n / m] on two integers below
    [2^53] is [div (of_nat n) (of_nat m)]. *)
Definition div (x y : spec_float) : spec_float := SFdiv prec emax x y.
Definition mul (x y : spec_float) : spec_float := SFmul prec emax x y.

(** The rational a float stands for; [None] for an infinity and for
    NaN. *)
Definition to_Q (x : spec_float) : option Q :=
  match x with
  | S754_zero _ => Some 0
  | S754_finite s m e =>
      Some (inject_Z (if s then Z.neg m else Z.pos m) * Qpower 2 e)
  | S754_infinity _ => None
  | S754_nan => None
  end.

(** [n / m * 100] on two integers: the quotient is rounded, then the
    product. *)
Definition percentage (n m : nat) : spec_float :=
  mul (div (of_nat n) (of_nat m)) (of_nat 100).

(** [100 * n / m] on two integers: the product is exact, the quotient
    is rounded. *)
Definition percentage_product_first (n m : nat) : spec_float :=
  div (mul (of_nat 100) (of_nat n)) (of_nat m).

(** Whether a float is a number between 0 and 100 that is within
    [2^-46] of the rational [q]. *)
Definition near_percentage (x : spec_float) (q : Q) : bool :=
  match to_Q x with
  | Some v =>
      Qle_bool 0 v && Qle_bool v 100
      && Qle_bool (Qabs (v - q)) (1 # 2 ^ 46)
  | None => false
  end.

End Binary64.

(* ================================================================= *)
(** ** [SkillAnalyzer] *)

Module SkillAnalyzer.

Import PyDict.

(** [self.skill_categories], in the order the constructor writes it. *)
Definition skill_categories : dict (list string) :=
  [ ("programming_languages",
      ["python"; "java"; "javascript"; "typescript"; "c++"; "c#"; "php";
       "ruby"; "go"; "rust"; "swift"; "kotlin"; "scala"; "r"; "matlab";
       "sql"; "perl"; "haskell"]);
    ("web_technologies",
      ["html"; "css"; "sass"; "less"; "react"; "angular"; "vue";
       "node.js"; "express"; "django"; "flask"; "spring"; "laravel";
       "jquery"; "bootstrap"; "webpack"; "gatsby"]);
    ("databases",
      ["mysql"; "postgresql"; "mongodb"; "redis"; "elasticsearch";
       "oracle"; "sqlite"; "cassandra"; "dynamodb"; "neo4j"; "mariadb";
       "couchdb"; "firebase"]);
    ("cloud_devops",
      ["aws"; "azure"; "gcp"; "docker"; "kubernetes"; "jenkins"; "gitlab";
       "github actions"; "terraform"; "ansible"; "chef"; "puppet";
       "circleci"; "nginx"; "apache"]);
    ("data_science_ml",
      ["machine learning"; "deep learning"; "tensorflow"; "pytorch";
       "scikit-learn"; "pandas"; "numpy"; "matplotlib"; "keras"; "opencv";
       "nlp"; "computer vision"]);
    ("soft_skills",
      ["leadership"; "communication"; "teamwork"; "problem solving";
       "project management"; "analytical"; "time management";
       "creativity"; "collaboration"; "adaptability"]) ].

(** The inner loop over one category:
    [for skill in skills: if re.search(...): found[category].append(skill)] *)
Definition scan_category (text : string) (category : string)
           (skills : list string) (found : dict (list string))
  : dict (list string) :=
  fold_left
    (fun acc skill =>
       if Regex.search_word skill text
       then append_at category skill acc else acc)
    skills found.

(** The outer loop [for category, skills in self.skill_categories.items()]
    started from an empty [defaultdict(list)]. *)
Definition scan_text (text : string) : dict (list string) :=
  fold_left
    (fun acc cs => scan_category text (fst cs) (snd cs) acc)
    skill_categories [].

(** One turn of [for category, skills in job_skills.items()]. *)
Definition compare_category (found_skills : dict (list string))
           (acc : list string * list string)
           (entry : string * list string)
  : list string * list string :=
  let resume_skills :=
    PySet.of_list (get_default (fst entry) [] found_skills) in
  let job_skill_set := PySet.of_list (snd entry) in
  let matched := PySet.inter resume_skills job_skill_set in
  let missing := PySet.diff job_skill_set resume_skills in
  (fst acc ++ matched, snd acc ++ missing).

Record comparison := {
  resume_skills : dict (list string);
  job_skills : dict (list string);
  matched_skills : list string;
  missing_skills : list string;
  skill_match_percentage : Q;
  skill_match_percentage_binary64 : spec_float
}.

(** What [analyze_skills] returns: the flat mapping, or the dictionary
    with the five comparison keys.  The value under
    ['skill_match_percentage'] is given twice: as the float Python
    computes ([skill_match_percentage_binary64]) and as the rational the
    expression denotes before any rounding ([skill_match_percentage]). *)
Inductive analysis :=
| Profile (p : dict (list string))
| Comparison (c : comparison).

Definition sorted_profile (d : dict (list string)) : dict (list string) :=
  map_values PyStr.sorted d.

Definition job_skill_total (job : dict (list string)) : nat :=
  List.length (PySet.union_all (map PySet.of_list (values job))).

Definition analyze_skills (resume_text : string)
           (job_description : option string) : analysis :=
  let text_lower := PyStr.lower resume_text in
  let found_skills := scan_text text_lower in
  match job_description with
  | Some jd =>
      if PyStr.truthy jd then
        let job_lower := PyStr.lower jd in
        let job := scan_text job_lower in
        let mm := fold_left (compare_category found_skills) job ([], []) in
        Comparison
          {| resume_skills := sorted_profile found_skills;
             job_skills := sorted_profile job;
             matched_skills := PyStr.sorted (fst mm);
             missing_skills := PyStr.sorted (snd mm);
             skill_match_percentage :=
               (inject_Z (Z.of_nat (List.length (fst mm)))
                / inject_Z (Z.of_nat (Nat.max (job_skill_total job) 1)))
               * 100;
             skill_match_percentage_binary64 :=
               Binary64.percentage
                 (List.length (fst mm))
                 (Nat.max (job_skill_total job) 1) |}
      else Profile (sorted_profile found_skills)
  | None => Profile (sorted_profile found_skills)
  end.


(** [self.all_skills]: the union of the categories. *)
Definition all_skills : list string :=
  fold_left PySet.union (values skill_categories) [].

(** The skills of a list that occur in a text as whole words. *)
Definition detected_in (text : string) (skills : list string)
  : list string :=
  filter (fun skill => Regex.search_word skill text) skills.

(** The taxonomy skills detected in a text. *)
Definition detected_skills (text : string) : list string :=
  detected_in text all_skills.

(** The categories with a detected skill, each with its detected
    skills: what the two loops of [scan_text] build (lemma
    [scan_text_detected]). *)
Definition detected_profile (text : string) : dict (list string) :=
  flat_map
    (fun cs =>
       match detected_in text (snd cs) with
       | [] => []
       | l => [(fst cs, l)]
       end)
    skill_categories.

(** The invariant of a skill profile: every listed skill belongs to
    the taxonomy's set for its category, and no list repeats a skill. *)
Definition profile_ok (p : dict (list string)) : Prop :=
  forall category skills,
    In (category, skills) p ->
    NoDup skills
    /\ exists taxonomy_set,
        get category skill_categories = Some taxonomy_set
        /\ forall skill, In skill skills -> In skill taxonomy_set.

Definition analysis_ok (a : analysis) : Prop :=
  match a with
  | Profile p => profile_ok p
  | Comparison c => profile_ok (resume_skills c) /\ profile_ok (job_skills c)
  end.

(** [a.get(key, [])] on the dictionary [analyze_skills] returned, for
    the keys the code asks for: a category name, ["matched_skills"] or
    ["missing_skills"].  (The two other keys of the comparison hold
    dictionaries and are never read this way.) *)
Definition analysis_get (key : string) (a : analysis) : list string :=
  match a with
  | Profile p => get_default key [] p
  | Comparison c =>
      if String.eqb key "matched_skills" then matched_skills c
      else if String.eqb key "missing_skills" then missing_skills c
      else []
  end.

(** The loop body of [get_skill_gap] for one category. *)
Definition gap_step (resume job : analysis)
           (skill_gaps : dict (list string)) (category : string)
  : dict (list string) :=
  let resume_set := PySet.of_list (analysis_get category resume) in
  let job_set := PySet.of_list (analysis_get category job) in
  let missing := PySet.diff job_set resume_set in
  match missing with
  | [] => skill_gaps
  | _ :: _ => set category (PyStr.sorted missing) skill_gaps
  end.

Definition skill_gaps_of (resume job : analysis) : dict (list string) :=
  fold_left (gap_step resume job) (keys skill_categories) [].

Definition get_skill_gap (resume_text job_description : string)
  : dict (list string) :=
  let resume := analyze_skills resume_text None in
  let job := analyze_skills job_description None in
  skill_gaps_of resume job.

Definition priority_categories : list string :=
  ["programming_languages"; "web_technologies"; "cloud_devops";
   "data_science_ml"].

(** [l[:n]]: a negative bound counts from the end of the list. *)
Definition slice_to {A} (l : list A) (n : Z) : list A :=
  if (0 <=? n)%Z then firstn (Z.to_nat n) l
  else firstn (List.length l - Z.to_nat (- n)) l.

Definition learn_text (category skill : string) : string :=
  ("Consider learning " ++ skill ++ " to improve your "
     ++ PyStr.replace_char "_" " " category ++ " skills")%string.

Definition add_text (skill : string) : string :=
  ("Consider adding " ++ skill ++ " to your skillset")%string.

(** First loop: the priority categories, two skills of each. *)
Definition add_priority (missing : dict (list string))
           (suggestions : list string) (category : string) : list string :=
  if mem category missing then
    let skills := get_default category [] missing in
    suggestions ++ map (learn_text category) (firstn 2 skills)
  else suggestions.

(** Second loop, with its [break]. *)
Fixpoint add_remaining (missing : dict (list string)) (num_suggestions : Z)
         (remaining_categories : list string) (suggestions : list string)
  : list string :=
  match remaining_categories with
  | [] => suggestions
  | category :: rest =>
      if (num_suggestions <=? Z.of_nat (List.length suggestions))%Z
      then suggestions
      else
        let skills := get_default category [] missing in
        add_remaining missing num_suggestions rest
          (suggestions ++ map add_text (firstn 1 skills))
  end.

Definition is_priority (category : string) : bool :=
  PySet.mem category priority_categories.

Definition get_skill_suggestions (missing : dict (list string))
           (num_suggestions : Z) : list string :=
  let suggestions :=
    fold_left (add_priority missing) priority_categories [] in
  let suggestions :=
    if (Z.of_nat (List.length suggestions) <? num_suggestions)%Z then
      let remaining_categories :=
        filter (fun cat => negb (is_priority cat)) (keys missing) in
      add_remaining missing num_suggestions remaining_categories
        suggestions
    else suggestions in
  slice_to suggestions num_suggestions.

(** *** The same function with every suggestion labelled by the
    category it was made for.  The labels are ghost data: erasing them
    gives [get_skill_suggestions] back (lemma [tagged_erase]). *)

Definition add_priority_tagged (missing : dict (list string))
           (suggestions : list (string * string)) (category : string)
  : list (string * string) :=
  if mem category missing then
    let skills := get_default category [] missing in
    suggestions
      ++ map (fun skill => (category, learn_text category skill))
             (firstn 2 skills)
  else suggestions.

Fixpoint add_remaining_tagged (missing : dict (list string))
         (num_suggestions : Z) (remaining_categories : list string)
         (suggestions : list (string * string))
  : list (string * string) :=
  match remaining_categories with
  | [] => suggestions
  | category :: rest =>
      if (num_suggestions <=? Z.of_nat (List.length suggestions))%Z
      then suggestions
      else
        let skills := get_default category [] missing in
        add_remaining_tagged missing num_suggestions rest
          (suggestions
             ++ map (fun skill => (category, add_text skill))
                    (firstn 1 skills))
  end.

Definition get_skill_suggestions_tagged (missing : dict (list string))
           (num_suggestions : Z) : list (string * string) :=
  let suggestions :=
    fold_left (add_priority_tagged missing) priority_categories [] in
  let suggestions :=
    if (Z.of_nat (List.length suggestions) <? num_suggestions)%Z then
      let remaining_categories :=
        filter (fun cat => negb (is_priority cat)) (keys missing) in
      add_remaining_tagged missing num_suggestions remaining_categories
        suggestions
    else suggestions in
  slice_to suggestions num_suggestions.

(** *** The suggestion list as the specification words it: two per
    priority category in the fixed order, then one per other category
    in the order of the mapping, cut to the limit. *)

Definition spec_priority_part (missing : dict (list string))
  : list (string * string) :=
  flat_map
    (fun category =>
       map (fun skill => (category, learn_text category skill))
           (firstn 2 (get_default category [] missing)))
    priority_categories.

Definition spec_other_part (missing : dict (list string))
  : list (string * string) :=
  flat_map
    (fun entry =>
       map (fun skill => (fst entry, add_text skill))
           (firstn 1 (snd entry)))
    (filter (fun entry => negb (is_priority (fst entry))) missing).

Definition spec_suggestions (missing : dict (list string)) (limit : nat)
  : list (string * string) :=
  firstn limit (spec_priority_part missing ++ spec_other_part missing).

(** Number of suggestions made for one category. *)
Definition count_for (category : string) (l : list (string * string))
  : nat :=
  List.length (filter (fun t => String.eqb (fst t) category) l).

End SkillAnalyzer.


(* ================================================================= *)
(** ** Exceptions *)

Module PyExn.

(** The exception classes that matter to the handlers of this code.
    [KeyboardInterrupt], [SystemExit] and [GeneratorExit] derive from
    [BaseException] only; [UnicodeError] and [JSONDecodeError] derive
    from [ValueError]; all the others derive from [Exception]. *)
Inductive cls :=
| AttributeError | TypeError | ValueError | UnicodeError | JSONDecodeError
| NameError | KeyError | IndexError | RuntimeError | ConnectionError
| TimeoutError | KeyboardInterrupt | SystemExit | GeneratorExit.

Record exn := { exn_class : cls; exn_str : string }.

(** [isinstance(e, Exception)] *)
Definition is_Exception (e : exn) : bool :=
  match exn_class e with
  | KeyboardInterrupt | SystemExit | GeneratorExit => false
  | _ => true
  end.

(** [isinstance(e, ValueError)] *)
Definition is_ValueError (e : exn) : bool :=
  match exn_class e with
  | ValueError | UnicodeError | JSONDecodeError => true
  | _ => false
  end.

Inductive outcome (A : Type) :=
| Returned (a : A)
| Raised (e : exn).
Arguments Returned {A} a.
Arguments Raised {A} e.

Definition bind {A B} (m : outcome A) (k : A -> outcome B) : outcome B :=
  match m with
  | Returned a => k a
  | Raised e => Raised e
  end.

Definition raise {A} (c : cls) (msg : string) : outcome A :=
  Raised {| exn_class := c; exn_str := msg |}.

(** [try: body  except Exception as e: handler(e)] *)
Definition try_except_Exception {A} (body : outcome A)
           (handler : exn -> outcome A) : outcome A :=
  match body with
  | Returned a => Returned a
  | Raised e => if is_Exception e then handler e else Raised e
  end.

(** A computation whose exceptions all derive from [Exception]. *)
Definition raises_only_Exception {A} (o : outcome A) : Prop :=
  forall e, o = Raised e -> is_Exception e = true.

End PyExn.

Notation "x <- m ;; k" := (PyExn.bind m (fun x => k))
(at level 61, m at next level, right associativity).

(* ================================================================= *)
(** ** The analyzer's methods as a caller sees them

  The methods of [SkillAnalyzer] are not type checked: an argument can
  be any object, and each method runs its body under
  [try ... except Exception].  The arguments range over [None],
  booleans, integers, strings, lists of strings and dictionaries from
  strings to lists of strings. *)

Module Dynamic.

Import PyExn PyDict SkillAnalyzer.

Inductive pyval :=
| PyNone
| PyBool (b : bool)
| PyInt (z : Z)
| PyStr (s : string)
| PyStrList (l : list string)
| PySkillDict (d : dict (list string)).

(** [bool(v)] *)
Definition truthy (v : pyval) : bool :=
  match v with
  | PyNone => false
  | PyBool b => b
  | PyInt z => negb (z =? 0)%Z
  | PyStr s => PyStr.truthy s
  | PyStrList l => match l with [] => false | _ :: _ => true end
  | PySkillDict d => match d with [] => false | _ :: _ => true end
  end.

(** [v.lower()] succeeds on a [str] only; the result is the receiver,
    which [SkillAnalyzer.analyze_skills] then lowers. *)
Definition receiver_of_lower (v : pyval) : outcome string :=
  match v with
  | PyStr s => Returned s
  | _ => raise AttributeError "object has no attribute 'lower'"
  end.

(** [key in v] *)
Definition contains_key (key : string) (v : pyval) : outcome bool :=
  match v with
  | PySkillDict d => Returned (mem key d)
  | PyStrList l => Returned (PySet.mem key l)
  | PyStr s => Returned (PyStr.contains key s)
  | _ => raise TypeError "argument is not iterable"
  end.

(** [v[key]] for a string [key] *)
Definition subscript (v : pyval) (key : string) : outcome (list string) :=
  match v with
  | PySkillDict d =>
      match get key d with
      | Some l => Returned l
      | None => raise KeyError key
      end
  | PyStr _ => raise TypeError "string indices must be integers"
  | PyStrList _ => raise TypeError "list indices must be integers or slices"
  | _ => raise TypeError "object is not subscriptable"
  end.

(** [v.keys()] *)
Definition dict_keys (v : pyval) : outcome (list string) :=
  match v with
  | PySkillDict d => Returned (keys d)
  | _ => raise AttributeError "object has no attribute 'keys'"
  end.

(** The integer an object is compared as in [n < v]; [bool] is a
    subclass of [int]. *)
Definition as_int (v : pyval) : outcome Z :=
  match v with
  | PyInt z => Returned z
  | PyBool b => Returned (if b then 1 else 0)%Z
  | _ => raise TypeError "'<' not supported between these instances"
  end.

(** The body of [analyze_skills]: [resume_text.lower()] first, then
    [if job_description:] and [job_description.lower()]. *)
Definition analyze_skills_body (resume_text job_description : pyval)
  : outcome analysis :=
  text <- receiver_of_lower resume_text ;;
  if truthy job_description then
    jd <- receiver_of_lower job_description ;;
    Returned (SkillAnalyzer.analyze_skills text (Some jd))
  else Returned (SkillAnalyzer.analyze_skills text None).

(** [return {}] *)
Definition empty_mapping : analysis := Profile [].

Definition analyze_skills (resume_text job_description : pyval)
  : outcome analysis :=
  try_except_Exception
    (analyze_skills_body resume_text job_description)
    (fun _ => Returned empty_mapping).

Definition get_skill_gap_body (resume_text job_description : pyval)
  : outcome (dict (list string)) :=
  resume <- analyze_skills resume_text PyNone ;;
  job <- analyze_skills job_description PyNone ;;
  Returned (skill_gaps_of resume job).

Definition get_skill_gap (resume_text job_description : pyval)
  : outcome (dict (list string)) :=
  try_except_Exception
    (get_skill_gap_body resume_text job_description)
    (fun _ => Returned []).

Definition add_priority (missing : pyval) (acc : outcome (list string))
           (category : string) : outcome (list string) :=
  suggestions <- acc ;;
  present <- contains_key category missing ;;
  if (present : bool) then
    skills <- subscript missing category ;;
    Returned (suggestions ++ map (learn_text category) (firstn 2 skills))
  else Returned suggestions.

Definition get_skill_suggestions_body (missing num_suggestions : pyval)
  : outcome (list string) :=
  suggestions <-
    fold_left (add_priority missing) priority_categories (Returned []) ;;
  num <- as_int num_suggestions ;;
  suggestions <-
    (if (Z.of_nat (List.length suggestions) <? num)%Z then
       all_keys <- dict_keys missing ;;
       let remaining_categories :=
         filter (fun cat => negb (is_priority cat)) all_keys in
       match missing with
       | PySkillDict d =>
           Returned (add_remaining d num remaining_categories suggestions)
       | _ => raise TypeError "object is not subscriptable"
       end
     else Returned suggestions) ;;
  Returned (slice_to suggestions num).

Definition get_skill_suggestions (missing num_suggestions : pyval)
  : outcome (list string) :=
  try_except_Exception
    (get_skill_suggestions_body missing num_suggestions)
    (fun _ => Returned []).

End Dynamic.

(* ================================================================= *)
(** ** [app.py] *)

Module App.

Import PyExn PyDict SkillAnalyzer.

(** JSON-like values: what the LLM engine returns and what the
    fallback builds. *)
#[local] Unset Elimination Schemes.
Inductive json :=
| JNone
| JNum (q : Q)
| JStr (s : string)
| JList (l : list json)
| JDict (d : list (string * json)).
#[local] Set Elimination Schemes.



Definition strs (l : list string) : json := JList (map JStr l).

(** [llm_engine]: an object with two methods, of which only the
    outcome matters.  The module never binds the name: the functions
    below take the binding as an argument, [None] when the name is
    unbound as in the module taken alone. *)
Record LlmEngine := {
  analyze_resume : string -> string -> outcome json;
  analyze_score_matrix :
    string -> string -> Q -> Q -> analysis -> outcome json
}.

Definition rate_limit_marker : string := "Rate limit exceeded".

Definition fallback_llm_analysis (ats_score : Q) : json :=
  JDict
    [ ("strengths",
        strs ["Processed without enhanced AI analysis due to rate limiting"]);
      ("improvement_areas",
        strs ["Consider trying again later for enhanced analysis"]);
      ("action_insights", strs ["Continue with basic analysis for now"]);
      ("overall_impression",
        JStr "Analysis completed with limited AI enhancement due to service limitations");
      ("match_score", JNum ats_score) ].

Definition fallback_score_matrix (ats_score match_score : Q) : json :=
  JDict
    [ ("score_matrix",
        JDict
          [ ("overall_score",
              JDict
                [ ("score", JNum ((ats_score + match_score) / 2));
                  ("analysis",
                    JStr "Basic scoring without enhanced AI analysis") ]) ]);
      ("key_strengths", strs ["Basic analysis due to rate limiting"]);
      ("improvement_opportunities",
        strs ["Try again later for enhanced analysis"]);
      ("action_insights", strs ["Continue with basic analysis"]) ].

(** The [try] block: the two calls to the engine. *)
(** Reading the global name [llm_engine]. *)
Definition global_llm_engine (binding : option LlmEngine)
  : outcome LlmEngine :=
  match binding with
  | Some engine => Returned engine
  | None => raise NameError "name 'llm_engine' is not defined"
  end.

Definition llm_calls (llm_engine : option LlmEngine)
           (resume_text job_description : string)
           (ats_score match_score : Q) (skill_analysis : analysis)
  : outcome (json * json * option string) :=
  engine <- global_llm_engine llm_engine ;;
  llm_analysis <- analyze_resume engine resume_text job_description ;;
  engine <- global_llm_engine llm_engine ;;
  score_matrix <-
    analyze_score_matrix engine resume_text job_description
      ats_score match_score skill_analysis ;;
  Returned (llm_analysis, score_matrix, None).

Definition get_enhanced_llm_analysis (llm_engine : option LlmEngine)
           (resume_text job_description : string)
           (ats_score match_score : Q) (skill_analysis : analysis)
  : outcome (json * json * option string) :=
  match llm_calls llm_engine resume_text job_description
          ats_score match_score skill_analysis with
  | Returned r => Returned r
  | Raised ve =>
      if is_ValueError ve then
        if PyStr.contains rate_limit_marker (exn_str ve) then
          Returned
            (fallback_llm_analysis ats_score,
             fallback_score_matrix ats_score match_score,
             Some "Rate limit exceeded. Using basic analysis.")
        else Returned (JNone, JNone, Some (exn_str ve))
      else if is_Exception ve then
        Returned (JNone, JNone, Some (exn_str ve))
      else Raised ve
  end.



(** *** [generate_recommendations] *)

Record recommendations := {
  strengths : list string;
  weaknesses : list string;
  action_items : list string
}.

Definition empty_recommendations : recommendations :=
  {| strengths := []; weaknesses := []; action_items := [] |}.

Definition add_strength (s : string) (r : recommendations) :=
  {| strengths := strengths r ++ [s];
     weaknesses := weaknesses r;
     action_items := action_items r |}.

Definition add_weakness (s : string) (r : recommendations) :=
  {| strengths := strengths r;
     weaknesses := weaknesses r ++ [s];
     action_items := action_items r |}.

Definition extend_actions (l : list string) (r : recommendations) :=
  {| strengths := strengths r;
     weaknesses := weaknesses r;
     action_items := action_items r ++ l |}.

(** [a < b] on numbers *)
Definition Qltb (a b : Q) : bool := negb (Qle_bool b a).

(** The branch of [if ats_score >= 80: ... elif ats_score >= 60: ...
    else: ...] that runs. *)
Inductive tier := Strong | Good | Weak.

Definition score_tier (ats_score : Q) : tier :=
  if Qle_bool 80 ats_score then Strong
  else if Qle_bool 60 ats_score then Good
  else Weak.

Definition tier_rules (t : tier) (r : recommendations) : recommendations :=
  match t with
  | Strong => add_strength "Strong ATS compatibility" r
  | Good =>
      extend_actions
        ["Add more industry-specific keywords";
         "Enhance section headers for better visibility"]
        (add_strength "Good basic ATS formatting" r)
  | Weak =>
      extend_actions
        ["Add relevant keywords from the job description";
         "Improve section headers (Experience, Education, Skills)";
         "Use bullet points for better readability";
         "Include contact information and professional links"]
        (add_weakness "Needs ATS optimization" r)
  end.

Definition score_rules (ats_score : Q) (r : recommendations) :=
  tier_rules (score_tier ats_score) r.

(** [bool(skill_analysis)]: a dictionary is truthy unless it is empty;
    the comparison always has its five keys. *)
Definition analysis_truthy (a : analysis) : bool :=
  match a with
  | Profile [] => false
  | Profile (_ :: _) => true
  | Comparison _ => true
  end.

Definition nonempty {A} (l : list A) : bool :=
  match l with [] => false | _ :: _ => true end.

Definition skill_rules (skill_analysis : analysis) (r : recommendations) :=
  if analysis_truthy skill_analysis then
    let matched_skills := analysis_get "matched_skills" skill_analysis in
    let missing_skills := analysis_get "missing_skills" skill_analysis in
    let r :=
      if nonempty matched_skills then
        add_strength
          ("Strong match in "
             ++ PyStr.of_nat (List.length matched_skills)
             ++ " key skills")%string r
      else r in
    if nonempty missing_skills then
      extend_actions
        [("Consider developing: "
            ++ PyStr.join ", " (firstn 3 missing_skills))%string;
         "Focus on acquiring the missing technical skills";
         "Highlight transferable skills that compensate for gaps"]
        (add_weakness
           ("Missing " ++ PyStr.of_nat (List.length missing_skills)
              ++ " relevant skills")%string r)
    else r
  else r.

(** [any(s.lower() in item.lower() for item in items)] *)
Definition covered (s : string) (items : list string) : bool :=
  existsb (fun item => PyStr.contains (PyStr.lower s) (PyStr.lower item))
          items.

(** One turn of the loop over [llm_improvements]: [continue] when the
    improvement is covered, append it otherwise. *)
Definition merge_step (items : list string) (improvement : string)
  : list string :=
  if covered improvement items then items else items ++ [improvement].

Definition merge_improvements (llm_improvements : option (list string))
           (r : recommendations) : recommendations :=
  match llm_improvements with
  | Some l =>
      if nonempty l then
        {| strengths := strengths r;
           weaknesses := weaknesses r;
           action_items := fold_left merge_step l (action_items r) |}
      else r
  | None => r
  end.

Definition format_recommendations : list string :=
  ["Use consistent date formats";
   "Add more bullet points for achievements";
   "Include clear section headers";
   "Add quantifiable achievements"].

(** One turn of the loop over [format_recommendations]. *)
Definition format_step (items : list string) (rec : string) : list string :=
  if negb (covered rec items) then items ++ [rec] else items.

Definition format_pass (ats_score : Q) (r : recommendations) :=
  if Qltb ats_score 80 then
    {| strengths := strengths r;
       weaknesses := weaknesses r;
       action_items :=
         fold_left format_step format_recommendations (action_items r) |}
  else r.

(** The body of the function as a sequence of statements, each with
    the line of the source it starts on. *)
Inductive stmt :=
| Do (f : recommendations -> recommendations)
| Return.

Inductive completion :=
| Returned_at (line : nat) (r : recommendations)
| Fell_off (r : recommendations).

Fixpoint run (body : list (nat * stmt)) (r : recommendations)
  : completion :=
  match body with
  | [] => Fell_off r
  | (_, Do f) :: rest => run rest (f r)
  | (line, Return) :: _ => Returned_at line r
  end.

Definition passes (skill_analysis : analysis) (ats_score : Q)
           (llm_improvements : option (list string)) : list (nat * stmt) :=
  [ (292, Do (score_rules ats_score));
    (310, Do (skill_rules skill_analysis));
    (326, Do (merge_improvements llm_improvements));
    (333, Do (format_pass ats_score)) ]%nat.

Definition generate_recommendations_body (skill_analysis : analysis)
           (ats_score : Q) (llm_improvements : option (list string))
  : list (nat * stmt) :=
  passes skill_analysis ats_score llm_improvements
    ++ [ (345, Return); (347, Return) ]%nat.

(** The value of the call; a body that ends without [return] gives
    [None]. *)
Definition generate_recommendations (skill_analysis : analysis)
           (ats_score : Q) (llm_improvements : option (list string))
  : option recommendations :=
  match run (generate_recommendations_body skill_analysis ats_score
               llm_improvements) empty_recommendations with
  | Returned_at _ r => Some r
  | Fell_off _ => None
  end.

(** Two action items are case-insensitive duplicates when they are
    equal once lowered. *)
Definition no_case_duplicates (items : list string) : Prop :=
  NoDup (map PyStr.lower items).

End App.

(* ================================================================= *)
(** ** More of Python's strings and numbers *)

From Stdlib Require Import Qround Lqa.

Module PyText.

(** [c.isspace()] on ASCII: tab to carriage return, the four
    separators 28 to 31, and the space. *)
Definition is_space (c : ascii) : bool :=
  let n := N_of_ascii c in
  (((9 <=? n) && (n <=? 13)) || ((28 <=? n) && (n <=? 32)))%N.

(** [s.lstrip()] *)
Fixpoint lstrip (s : string) : string :=
  match s with
  | EmptyString => EmptyString
  | String c s' => if is_space c then lstrip s' else s
  end.

(** [s.rstrip()] *)
Fixpoint rstrip (s : string) : string :=
  match s with
  | EmptyString => EmptyString
  | String c s' =>
      match rstrip s' with
      | EmptyString => if is_space c then EmptyString else String c EmptyString
      | (String _ _) as r => String c r
      end
  end.

(** [s.strip()] *)
Definition strip (s : string) : string := rstrip (lstrip s).

(** Every character of the string is white space. *)
Fixpoint all_space (s : string) : bool :=
  match s with
  | EmptyString => true
  | String c s' => is_space c && all_space s'
  end.

(** The cut of [s] at its last [sep]: what is before and what is
    after; [None] when [sep] does not occur. *)
Fixpoint cut_last (sep : ascii) (s : string) : option (string * string) :=
  match s with
  | EmptyString => None
  | String c s' =>
      match cut_last sep s' with
      | Some (before, after) => Some (String c before, after)
      | None => if Ascii.eqb c sep then Some (EmptyString, s') else None
      end
  end.

(** [s.rsplit(sep, 1)] for a one-character [sep]. *)
Definition rsplit1 (sep : ascii) (s : string) : list string :=
  match cut_last sep s with
  | Some (before, after) => [before; after]
  | None => [s]
  end.

(** The last character of [s], or [prev] when [s] is empty. *)
Fixpoint last_char (prev : option ascii) (s : string) : option ascii :=
  match s with
  | EmptyString => prev
  | String c s' => last_char (Some c) s'
  end.

(** Whether a string has an upper-case ASCII letter. *)
Fixpoint has_upper (s : string) : bool :=
  match s with
  | EmptyString => false
  | String c s' => PyStr.in_range "A" "Z" c || has_upper s'
  end.

(** Rounding to the nearest integer, a tie going to the even one. *)
Definition round_half_even (x : Q) : Z :=
  let f := Qfloor x in
  match Qcompare (x - inject_Z f)%Q (1 # 2)%Q with
  | Lt => f
  | Gt => (f + 1)%Z
  | Eq => if Z.even f then f else (f + 1)%Z
  end.

(** [round(x, 2)] *)
Definition round2 (x : Q) : Q :=
  (inject_Z (round_half_even (x * 100)) / 100)%Q.

End PyText.

(** A pattern occurs in a text as a whole word: it is a factor of the
    text with a word boundary in front of it and one behind it. *)
Definition occurs_as_word (pat text : string) : Prop :=
  exists pre post,
    text = (pre ++ pat ++ post)%string
    /\ Regex.boundary (PyText.last_char None pre) (pat ++ post)%string = true
    /\ Regex.boundary (PyText.last_char None (pre ++ pat)%string) post = true.

(* ================================================================= *)
(** ** [SkillAnalyzer.get_skill_match_percentage] *)

Module MatchPercentage.

Import PyDict.

(** One turn of [for category, skills in job_skills.items()]; the
    accumulator is [(total_job_skills, matched_skills)]. *)
Definition percentage_step (resume_skills : dict (list string))
           (acc : nat * nat) (entry : string * list string) : nat * nat :=
  let total_job_skills := (fst acc + List.length (snd entry))%nat in
  if mem (fst entry) resume_skills then
    let resume_set :=
      PySet.of_list (get_default (fst entry) [] resume_skills) in
    let job_set := PySet.of_list (snd entry) in
    (total_job_skills,
     (snd acc + List.length (PySet.inter resume_set job_set))%nat)
  else (total_job_skills, snd acc).

Definition totals (resume_skills job_skills : dict (list string))
  : nat * nat :=
  fold_left (percentage_step resume_skills) job_skills (0%nat, 0%nat).

Definition get_skill_match_percentage
           (resume_skills job_skills : dict (list string)) : Q :=
  let acc := totals resume_skills job_skills in
  if (fst acc =? 0)%nat then 0
  else
    PyText.round2
      (inject_Z (Z.of_nat (snd acc)) / inject_Z (Z.of_nat (fst acc)) * 100).

End MatchPercentage.

(* ================================================================= *)
(** ** The request handlers of [app.py] *)

Module Endpoints.

Import PyExn PyDict App.

Definition ALLOWED_EXTENSIONS : list string := ["pdf"; "txt"; "docx"; "doc"].

(** [l[i]] *)
Definition index {A} (l : list A) (i : nat) : outcome A :=
  match nth_error l i with
  | Some x => Returned x
  | None => raise IndexError "list index out of range"
  end.

(** ['.' in filename and
     filename.rsplit('.', 1)[1].lower() in ALLOWED_EXTENSIONS] *)
Definition allowed_file (filename : string) : outcome bool :=
  if PyStr.contains "." filename then
    ext <- index (PyText.rsplit1 "." filename) 1 ;;
    Returned (PySet.mem (PyStr.lower ext) ALLOWED_EXTENSIONS)
  else Returned false.

(** An uploaded file, as far as the handler looks at it: its
    [filename], which can be [None]; [bool(file)] is the truth value of
    the name. *)
Record upload := { filename : option string }.

(** [request.form] and [request.files]. *)
Record request := {
  form : dict string;
  files : dict upload
}.

(** How the first part of [analyze_resume] ends: with a response and
    its status, or with the two texts the analysis goes on with. *)
Inductive inputs :=
| Rejected (status : nat) (error : string)
| Accepted (resume_text job_description : string).

(** [not text or not text.strip()] *)
Definition blank (text : option string) : bool :=
  match text with
  | None => true
  | Some s => negb (PyStr.truthy s) || negb (PyStr.truthy (PyText.strip s))
  end.

(** The branch on [request.files] and [request.form]: a rejection or
    the resume text.  [process_upload] stands for what is done with an
    accepted upload (saving it under its secured name, extracting its
    text, removing it); it is given the file's name. *)
Definition read_resume (process_upload : string -> outcome (option string))
           (req : request) : outcome (inputs + option string) :=
  match get "resume_file" (files req) with
  | Some file =>
      match filename file with
      | Some name =>
          if PyStr.truthy name then
            allowed <- allowed_file name ;;
            if (allowed : bool) then
              resume_text <- process_upload name ;;
              Returned (inr resume_text)
            else Returned (inl (Rejected 400 "Invalid file format"))
          else Returned (inl (Rejected 400 "Invalid file format"))
      | None => Returned (inl (Rejected 400 "Invalid file format"))
      end
  | None =>
      if mem "resume_text" (form req) then
        Returned (inr (get "resume_text" (form req)))
      else Returned (inl (Rejected 400 "No resume provided"))
  end.

(** [analyze_resume] up to the end of its input checks (lines 124 to
    148); an exception is left to the handler of the function. *)
Definition analyze_resume_inputs
           (process_upload : string -> outcome (option string))
           (req : request) : outcome inputs :=
  let job_description := get_default "job_description" "" (form req) in
  resume <- read_resume process_upload req ;;
  match resume with
  | inl rejection => Returned rejection
  | inr resume_text =>
      if blank resume_text then Returned (Rejected 400 "Resume text is empty")
      else if blank (Some job_description)
           then Returned (Rejected 400 "Job description is required")
           else
             match resume_text with
             | Some text => Returned (Accepted text job_description)
             | None => Returned (Rejected 400 "Resume text is empty")
             end
  end.

(** The improvements [generate_recommendations] runs over: none for
    [None]. *)
Definition improvements_of (llm_improvements : option (list string))
  : list string :=
  match llm_improvements with Some l => l | None => [] end.

(** [bool(j)] *)
Definition json_truthy (j : json) : bool :=
  match j with
  | JNone => false
  | JNum q => negb (Qeq_bool q 0)
  | JStr s => PyStr.truthy s
  | JList l => nonempty l
  | JDict d => nonempty d
  end.

Fixpoint json_lookup (key : string) (d : list (string * json))
  : option json :=
  match d with
  | [] => None
  | (k, v) :: d' => if String.eqb key k then Some v else json_lookup key d'
  end.

(** [j.get(key, dflt)] *)
Definition json_get_default (key : string) (dflt : json) (j : json)
  : outcome json :=
  match j with
  | JDict d =>
      Returned (match json_lookup key d with Some v => v | None => dflt end)
  | _ => raise AttributeError "object has no attribute 'get'"
  end.

Definition keyword_note : string :=
  "Consider adding more relevant keywords from the job description".

(** [any(keyword not in resume_text.lower() for keyword in job_keywords)] *)
Definition keyword_absent (resume_text : string) (job_keywords : list string)
  : bool :=
  existsb
    (fun keyword => negb (PyStr.contains keyword (PyStr.lower resume_text)))
    job_keywords.

(** The enhanced text and the notes of [enhance_resume] (lines 250 to
    268), from [analysis_results.get('llm_analysis')], the resume text
    and the job keywords. *)
Definition enhancement (llm_analysis : json) (resume_text : string)
           (job_keywords : list string) : outcome (json * json) :=
  if json_truthy llm_analysis then
    enhanced_text <-
      json_get_default "enhanced_resume" (JStr resume_text) llm_analysis ;;
    notes <- json_get_default "improvements" (JList []) llm_analysis ;;
    Returned (enhanced_text, notes)
  else
    let notes := ["Using basic enhancement due to LLM service limitations"] in
    let notes :=
      if keyword_absent resume_text job_keywords
      then notes ++ [keyword_note] else notes in
    let notes :=
      notes ++ ["Use clear section headers (Experience, Education, Skills)";
                "Include quantifiable achievements";
                "Add contact information and professional links"] in
    Returned (JStr resume_text, strs notes).

End Endpoints.

(* ================================================================= *)
(** * Properties *)

(** ** Strings, sets and dictionaries *)

Section StringFacts.

Lemma startswith_refl (s : string) : PyStr.startswith s s = true.
Proof.
  induction s as [|c s IH]; simpl; [reflexivity|].
  now rewrite Ascii.eqb_refl, IH.
Qed.

Lemma contains_refl (s : string) : PyStr.contains s s = true.
Proof. destruct s; simpl; [reflexivity|]. now rewrite Ascii.eqb_refl, startswith_refl. Qed.

Lemma insert_sorted_perm (x : string) (l : list string) :
  Permutation (PyStr.insert_sorted x l) (x :: l).
Proof.
  induction l as [|y l IH]; simpl; [reflexivity|].
  destruct (String.leb x y); [reflexivity|].
  rewrite IH. apply perm_swap.
Qed.

Lemma sorted_perm (l : list string) : Permutation (PyStr.sorted l) l.
Proof.
  induction l as [|x l IH]; simpl; [constructor|].
  rewrite insert_sorted_perm. now constructor.
Qed.

Lemma sorted_In (l : list string) (x : string) :
  In x (PyStr.sorted l) <-> In x l.
Proof.
  split; apply Permutation_in; [|symmetry]; apply sorted_perm.
Qed.

Lemma sorted_length (l : list string) :
  List.length (PyStr.sorted l) = List.length l.
Proof. apply Permutation_length, sorted_perm. Qed.

Lemma sorted_NoDup (l : list string) : NoDup l -> NoDup (PyStr.sorted l).
Proof.
  intros H. eapply Permutation_NoDup; [symmetry; apply sorted_perm|exact H].
Qed.

Lemma insert_sorted_ordered (x : string) (l : list string) :
  Sorted PyStr.le l -> Sorted PyStr.le (PyStr.insert_sorted x l).
Proof.
  induction 1 as [|y l Hl IH Hhd]; simpl.
  - repeat constructor.
  - destruct (String.leb x y) eqn:E.
    + constructor; [now constructor|]. now constructor.
    + constructor; [exact IH|].
      assert (Hyx : PyStr.le y x).
      { destruct (String.leb_total x y) as [H|H]; [congruence|exact H]. }
      destruct Hhd as [|z l Hz]; simpl.
      * now constructor.
      * destruct (String.leb x z); now constructor.
Qed.

(** [sorted] returns an ordered list. *)
Lemma sorted_ordered (l : list string) : Sorted PyStr.le (PyStr.sorted l).
Proof.
  induction l as [|x l IH]; simpl; [constructor|].
  now apply insert_sorted_ordered.
Qed.

End StringFacts.

Section SetFacts.

Lemma mem_In (x : string) (s : list string) :
  PySet.mem x s = true <-> In x s.
Proof.
  unfold PySet.mem. rewrite existsb_exists. split.
  - intros (y & Hy & E). apply String.eqb_eq in E. now subst.
  - intros H. exists x. split; [exact H|apply String.eqb_refl].
Qed.

Lemma of_list_In (x : string) (l : list string) :
  In x (PySet.of_list l) <-> In x l.
Proof. apply nodup_In. Qed.

Lemma of_list_NoDup (l : list string) : NoDup (PySet.of_list l).
Proof. apply NoDup_nodup. Qed.

Lemma of_list_fixed (l : list string) : NoDup l -> PySet.of_list l = l.
Proof. apply nodup_fixed_point. Qed.

Lemma of_list_length (l : list string) :
  (List.length (PySet.of_list l) <= List.length l)%nat.
Proof.
  apply NoDup_incl_length; [apply of_list_NoDup|].
  intros x. apply of_list_In.
Qed.

Lemma inter_In (x : string) (a b : list string) :
  In x (PySet.inter a b) <-> In x a /\ In x b.
Proof. unfold PySet.inter. now rewrite filter_In, mem_In. Qed.

Lemma diff_In (x : string) (a b : list string) :
  In x (PySet.diff a b) <-> In x a /\ ~ In x b.
Proof.
  unfold PySet.diff. rewrite filter_In, negb_true_iff.
  destruct (PySet.mem x b) eqn:E.
  - apply mem_In in E. intuition congruence.
  - assert (~ In x b) by (rewrite <- mem_In; congruence). tauto.
Qed.

(** A job-side set splits into what the resume has and what it lacks. *)
Lemma inter_diff_cover (x : string) (r j : list string) :
  In x (PySet.inter r j) \/ In x (PySet.diff j r) <-> In x j.
Proof.
  rewrite inter_In, diff_In. split; [tauto|].
  intros Hj. destruct (in_dec string_dec x r); tauto.
Qed.

Lemma inter_length (r j : list string) :
  NoDup r -> (List.length (PySet.inter r j) <= List.length j)%nat.
Proof.
  intros Hr. apply NoDup_incl_length.
  - now apply NoDup_filter.
  - intros x Hx. now apply inter_In in Hx.
Qed.

Lemma union_all_fold (sets : list (list string)) (acc : list string) :
  NoDup (acc ++ List.concat sets) ->
  fold_left PySet.union sets acc = acc ++ List.concat sets.
Proof.
  revert acc. induction sets as [|s sets IH]; intros acc H; simpl in *.
  - now rewrite app_nil_r.
  - rewrite app_assoc in H.
    assert (Hs : PySet.union acc s = acc ++ s).
    { unfold PySet.union. apply nodup_fixed_point.
      eapply NoDup_app_remove_r; exact H. }
    rewrite Hs, IH by exact H. now rewrite app_assoc.
Qed.

Lemma NoDup_concat_each (sets : list (list string)) :
  NoDup (List.concat sets) -> Forall (@NoDup string) sets.
Proof.
  induction sets as [|s sets IH]; simpl; intros H; constructor.
  - eapply NoDup_app_remove_r; exact H.
  - apply IH. eapply NoDup_app_remove_l; exact H.
Qed.

Lemma union_all_disjoint (sets : list (list string)) :
  NoDup (List.concat sets) ->
  PySet.union_all (map PySet.of_list sets) = List.concat sets.
Proof.
  intros H. unfold PySet.union_all.
  assert (E : map PySet.of_list sets = sets).
  { apply NoDup_concat_each in H.
    induction H as [|s sets Hs _ IH]; simpl; [reflexivity|].
    now rewrite of_list_fixed, IH. }
  rewrite E. now apply (union_all_fold sets []).
Qed.

End SetFacts.

Section DictFacts.

Import PyDict.
Context {V : Type}.

Lemma get_In (k : string) (v : V) (d : dict V) :
  NoDup (keys d) -> In (k, v) d -> get k d = Some v.
Proof.
  induction d as [|[k' v'] d IH]; simpl; intros Hnd Hin; [easy|].
  inversion Hnd as [|? ? Hk Hd]; subst.
  destruct Hin as [E|Hin].
  - inversion E; subst. now rewrite String.eqb_refl.
  - destruct (String.eqb_spec k k') as [->|_].
    + exfalso. apply Hk. now apply (in_map fst) in Hin.
    + now apply IH.
Qed.

Lemma get_None (k : string) (d : dict V) :
  ~ In k (keys d) -> get k d = None.
Proof.
  induction d as [|[k' v'] d IH]; simpl; intros H; [reflexivity|].
  destruct (String.eqb_spec k k') as [->|_]; [tauto|].
  apply IH. tauto.
Qed.

Lemma get_Some_In (k : string) (v : V) (d : dict V) :
  get k d = Some v -> In (k, v) d.
Proof.
  induction d as [|[k' v'] d IH]; simpl; [easy|].
  destruct (String.eqb_spec k k') as [->|_].
  - intros [= ->]. now left.
  - intros H. right. now apply IH.
Qed.

End DictFacts.

(** ** The taxonomy *)

Section TaxonomyFacts.

Import PyDict SkillAnalyzer.

Lemma NoDup_by_nodup (l : list string) : nodup string_dec l = l -> NoDup l.
Proof. intros <-. apply NoDup_nodup. Qed.

(** No category name is written twice. *)
Lemma taxonomy_keys_NoDup : NoDup (keys skill_categories).
Proof. apply NoDup_by_nodup. vm_compute. reflexivity. Qed.

(** No skill is listed twice, neither inside a category nor in two
    categories. *)
Lemma taxonomy_disjoint : NoDup (List.concat (values skill_categories)).
Proof. apply NoDup_by_nodup. vm_compute. reflexivity. Qed.

Lemma all_skills_concat :
  all_skills = List.concat (values skill_categories).
Proof. vm_compute. reflexivity. Qed.

Lemma taxonomy_set_NoDup (category : string) (set : list string) :
  In (category, set) skill_categories -> NoDup set.
Proof.
  intros H. pose proof (NoDup_concat_each _ taxonomy_disjoint) as F.
  rewrite Forall_forall in F. apply F.
  unfold values. now apply (in_map snd) in H.
Qed.

End TaxonomyFacts.

(** ** The scan of a text *)

Section ScanFacts.

Import PyDict SkillAnalyzer.
Variable text : string.

Lemma append_at_new {A} (k : string) (x : A) (d : dict (list A)) :
  ~ In k (keys d) -> append_at k x d = d ++ [(k, [x])].
Proof.
  induction d as [|[k' l'] d IH]; simpl; intros H; [reflexivity|].
  destruct (String.eqb_spec k k') as [->|_]; [tauto|].
  rewrite IH by tauto. reflexivity.
Qed.

Lemma append_at_last {A} (k : string) (x : A) (l : list A)
      (d : dict (list A)) :
  ~ In k (keys d) -> append_at k x (d ++ [(k, l)]) = d ++ [(k, l ++ [x])].
Proof.
  induction d as [|[k' l'] d IH]; simpl; intros H.
  - now rewrite String.eqb_refl.
  - destruct (String.eqb_spec k k') as [->|_]; [tauto|].
    rewrite IH by tauto. reflexivity.
Qed.

(** Once the category has its entry, the inner loop extends it. *)
Lemma scan_category_open (category : string) (skills l : list string)
      (d : dict (list string)) :
  ~ In category (keys d) ->
  scan_category text category skills (d ++ [(category, l)])
  = d ++ [(category, l ++ detected_in text skills)].
Proof.
  intros Hk. unfold scan_category. revert l.
  induction skills as [|s skills IH]; intros l; simpl.
  - now rewrite app_nil_r.
  - destruct (Regex.search_word s text).
    + rewrite append_at_last by exact Hk. rewrite IH.
      now rewrite <- app_assoc.
    + apply IH.
Qed.

Lemma scan_category_closed (category : string) (skills : list string)
      (d : dict (list string)) :
  ~ In category (keys d) ->
  scan_category text category skills d
  = d ++ match detected_in text skills with
         | [] => []
         | l => [(category, l)]
         end.
Proof.
  intros Hk. induction skills as [|s skills IH]; simpl.
  - now rewrite app_nil_r.
  - unfold scan_category in *. simpl.
    destruct (Regex.search_word s text).
    + rewrite append_at_new by exact Hk.
      apply (scan_category_open category skills [s] d Hk).
    + exact IH.
Qed.

Lemma scan_fold (tax d : dict (list string)) :
  NoDup (keys tax) ->
  (forall c, In c (keys tax) -> ~ In c (keys d)) ->
  fold_left (fun acc cs => scan_category text (fst cs) (snd cs) acc) tax d
  = d ++ flat_map
           (fun cs =>
              match detected_in text (snd cs) with
              | [] => []
              | l => [(fst cs, l)]
              end) tax.
Proof.
  revert d. induction tax as [|[c set] tax IH]; intros d Hnd Hfresh; simpl.
  - now rewrite app_nil_r.
  - inversion Hnd as [|? ? Hc Htax]; subst.
    rewrite scan_category_closed by (apply Hfresh; now left).
    rewrite IH; [now rewrite <- app_assoc|exact Htax|].
    intros c' Hc' Hin. unfold keys in Hin.
    rewrite map_app, in_app_iff in Hin. destruct Hin as [Hin|Hin].
    + apply (Hfresh c'); [now right|exact Hin].
    + destruct (detected_in text set); simpl in Hin; [easy|].
      destruct Hin as [<-|[]]. now apply Hc.
Qed.

(** The two nested loops compute the detected profile. *)
Lemma scan_text_detected : scan_text text = detected_profile text.
Proof.
  unfold scan_text, detected_profile.
  now rewrite scan_fold by (auto using taxonomy_keys_NoDup).
Qed.

Lemma detected_profile_In (category : string) (l : list string) :
  In (category, l) (detected_profile text) ->
  exists set,
    In (category, set) skill_categories /\ l = detected_in text set.
Proof.
  unfold detected_profile. rewrite in_flat_map.
  intros ([c set] & Hin & H). simpl in H.
  destruct (detected_in text set) eqn:E; simpl in H; [easy|].
  destruct H as [[= <- <-]|[]]. now exists set.
Qed.

Lemma detected_values (tax : dict (list string)) :
  List.concat
    (values
       (flat_map
          (fun cs =>
             match detected_in text (snd cs) with
             | [] => []
             | l => [(fst cs, l)]
             end) tax))
  = detected_in text (List.concat (values tax)).
Proof.
  unfold values, detected_in.
  induction tax as [|[c set] tax IH]; simpl; [reflexivity|].
  rewrite map_app, concat_app, IH, filter_app. f_equal.
  destruct (filter _ set); simpl; [reflexivity|].
  now rewrite app_nil_r.
Qed.

(** The skills of the detected profile are the detected skills. *)
Lemma detected_profile_values :
  List.concat (values (detected_profile text)) = detected_skills text.
Proof.
  unfold detected_profile, detected_skills.
  now rewrite detected_values, all_skills_concat.
Qed.

Lemma detected_skills_NoDup : NoDup (detected_skills text).
Proof.
  unfold detected_skills, detected_in. apply NoDup_filter.
  rewrite all_skills_concat. apply taxonomy_disjoint.
Qed.

Lemma sorted_profile_In (category : string) (l : list string)
      (d : dict (list string)) :
  In (category, l) (sorted_profile d) ->
  exists l0, l = PyStr.sorted l0 /\ In (category, l0) d.
Proof.
  unfold sorted_profile, map_values. rewrite in_map_iff.
  intros ([c l0] & [= <- <-] & Hin). now exists l0.
Qed.

Lemma scanned_profile_ok : profile_ok (sorted_profile (scan_text text)).
Proof.
  intros category skills Hin.
  apply sorted_profile_In in Hin. destruct Hin as (l0 & -> & Hin).
  rewrite scan_text_detected in Hin.
  apply detected_profile_In in Hin. destruct Hin as (set & Hset & ->).
  split.
  - apply sorted_NoDup. unfold detected_in. apply NoDup_filter.
    now apply (taxonomy_set_NoDup category).
  - exists set. split.
    + apply get_In; [apply taxonomy_keys_NoDup|exact Hset].
    + intros skill Hs. apply (proj1 (sorted_In _ _)) in Hs.
      unfold detected_in in Hs. now apply filter_In in Hs.
Qed.

End ScanFacts.

(** ** Claims on [analyze_skills] *)

Section AnalyzeSkills.

Import PyDict SkillAnalyzer.

(** C8.  Whatever the resume text and the job description (given or
    not), every skill profile that [analyze_skills] returns (the flat
    mapping, or the [resume_skills] and [job_skills] of the comparison)
    lists under each category only skills of the taxonomy's set for
    that category, and lists none twice. *)
Theorem C8_profiles_within_taxonomy
        (resume_text : string) (job_description : option string) :
  analysis_ok (analyze_skills resume_text job_description).
Proof.
  unfold analyze_skills.
  destruct job_description as [jd|]; [destruct (PyStr.truthy jd)|];
    cbn [analysis_ok resume_skills job_skills];
    auto using scanned_profile_ok.
Qed.

(** C10.  An empty job description is treated as an absent one: the
    result is the flat mapping from categories to sorted skill lists
    that the call without a job description returns, and not the
    comparison. *)
Theorem C10_empty_job_description_is_absent (resume_text : string) :
  analyze_skills resume_text (Some "") = analyze_skills resume_text None
  /\ analyze_skills resume_text (Some "")
     = Profile (sorted_profile (scan_text (PyStr.lower resume_text))).
Proof. split; reflexivity. Qed.

(** *** The comparison *)

Lemma compare_fold (found job : dict (list string))
      (acc : list string * list string) :
  fold_left (compare_category found) job acc
  = (fst acc
       ++ flat_map
            (fun e =>
               PySet.inter (PySet.of_list (get_default (fst e) [] found))
                           (PySet.of_list (snd e))) job,
     snd acc
       ++ flat_map
            (fun e =>
               PySet.diff (PySet.of_list (snd e))
                          (PySet.of_list (get_default (fst e) [] found)))
            job).
Proof.
  revert acc. induction job as [|e job IH]; intros [a b]; simpl.
  - now rewrite !app_nil_r.
  - rewrite IH. unfold compare_category. simpl.
    now rewrite <- !app_assoc.
Qed.

(** Matched and missing skills together are the job-side skills. *)
Lemma matched_missing_cover (found job : dict (list string)) (s : string) :
  In s (fst (fold_left (compare_category found) job ([], [])))
  \/ In s (snd (fold_left (compare_category found) job ([], [])))
  <-> In s (List.concat (values job)).
Proof.
  rewrite compare_fold. simpl. unfold values.
  induction job as [|e job IH]; simpl; [tauto|].
  rewrite !in_app_iff, <- IH, <- (of_list_In s (snd e)).
  rewrite <- (inter_diff_cover s
                (PySet.of_list (get_default (fst e) [] found))
                (PySet.of_list (snd e))).
  tauto.
Qed.

(** There are no more matched skills than job-side skills. *)
Lemma matched_length (found job : dict (list string)) :
  (List.length (fst (fold_left (compare_category found) job ([], [])))
   <= List.length (List.concat (values job)))%nat.
Proof.
  rewrite compare_fold. simpl. unfold values.
  induction job as [|e job IH]; simpl; [lia|].
  rewrite !length_app.
  pose proof (inter_length
                (PySet.of_list (get_default (fst e) [] found))
                (PySet.of_list (snd e)) (of_list_NoDup _)).
  pose proof (of_list_length (snd e)). lia.
Qed.

(** The denominator counts the detected job-side skills. *)
Lemma job_skill_total_detected (text : string) :
  job_skill_total (scan_text text) = List.length (detected_skills text).
Proof.
  unfold job_skill_total. rewrite scan_text_detected.
  rewrite union_all_disjoint, detected_profile_values; [reflexivity|].
  rewrite detected_profile_values. apply detected_skills_NoDup.
Qed.

Lemma percentage_bounds (m n : nat) :
  (m <= n)%nat -> (1 <= n)%nat ->
  0 <= inject_Z (Z.of_nat m) / inject_Z (Z.of_nat n) * 100 <= 100.
Proof.
  intros Hm Hn.
  assert (Hpos : 0 < inject_Z (Z.of_nat n)).
  { change 0 with (inject_Z 0). rewrite <- Zlt_Qlt. lia. }
  split.
  - apply Qmult_le_0_compat; [|discriminate].
    apply Qle_shift_div_l; [exact Hpos|].
    rewrite Qmult_0_l. change 0 with (inject_Z 0).
    rewrite <- Zle_Qle. lia.
  - setoid_replace 100 with (1 * 100) at 2 by ring.
    apply Qmult_le_compat_r; [|discriminate].
    apply Qle_shift_div_r; [exact Hpos|].
    rewrite Qmult_1_l, <- Zle_Qle. lia.
Qed.

Ltac comparison_inv H c :=
  match type of H with
  | Comparison ?x = Comparison c =>
      let E := fresh "E" in
      assert (E : c = x) by congruence; clear H; subst c
  end.

(** C2.  When the comparison is returned, a skill is among the
    matched or the missing skills exactly when it is a taxonomy skill
    detected in the job description: nothing invented, nothing
    dropped. *)
Theorem C2_matched_missing_cover_job_skills
        (resume_text jd : string) (c : comparison) :
  analyze_skills resume_text (Some jd) = Comparison c ->
  forall skill,
    In skill (matched_skills c) \/ In skill (missing_skills c)
    <-> In skill (detected_skills (PyStr.lower jd)).
Proof.
  unfold analyze_skills. destruct (PyStr.truthy jd); [|discriminate].
  intros H skill. comparison_inv H c.
  cbn [matched_skills missing_skills].
  rewrite !sorted_In, matched_missing_cover, scan_text_detected.
  now rewrite detected_profile_values.
Qed.

Lemma C2_matched_missing_cover_job_skills_witness :
  exists c,
    analyze_skills "Python and React" (Some "python, docker, aws")
    = Comparison c
    /\ forall skill,
        In skill (matched_skills c) \/ In skill (missing_skills c)
        <-> In skill (detected_skills (PyStr.lower "python, docker, aws")).
Proof.
  eexists. split; [vm_compute; reflexivity|].
  apply (C2_matched_missing_cover_job_skills "Python and React"
           "python, docker, aws").
  vm_compute. reflexivity.
Defined.

(** *** The percentage as a float *)

(** The taxonomy has 85 skills. *)
Lemma all_skills_length : List.length all_skills = 85%nat.
Proof. vm_compute. reflexivity. Qed.

Lemma detected_skills_length (text : string) :
  (List.length (detected_skills text) <= 85)%nat.
Proof.
  rewrite <- all_skills_length. unfold detected_skills, detected_in.
  induction all_skills as [|s l IH]; simpl; [lia|].
  destruct (Regex.search_word s text); simpl; lia.
Qed.

(** Every percentage the analyzer can compute, [m] matched skills out
    of [n <= 85], evaluated: it is a number between 0 and 100 within
    [2^-46] of [100 m / n]. *)
Lemma percentage_table :
  forallb
    (fun n =>
       forallb
         (fun m =>
            Binary64.near_percentage
              (Binary64.percentage m n)
              (100 * inject_Z (Z.of_nat m) / inject_Z (Z.of_nat n)))
         (seq 0 (S n)))
    (seq 1 85)
  = true.
Proof. vm_compute. reflexivity. Qed.

Lemma percentage_near (m n : nat) :
  (m <= n)%nat -> (1 <= n <= 85)%nat ->
  Binary64.near_percentage
    (Binary64.percentage m n)
    (100 * inject_Z (Z.of_nat m) / inject_Z (Z.of_nat n))
  = true.
Proof.
  intros Hm Hn. pose proof percentage_table as H.
  rewrite forallb_forall in H.
  assert (Hin : In n (seq 1 85)) by (apply in_seq; lia).
  specialize (H n Hin). cbv beta in H. rewrite forallb_forall in H.
  apply H. apply in_seq. lia.
Qed.

(** C1, as the code computes it.  When the comparison is returned,
    [skill_match_percentage] is the float [|matched| / max(|J|, 1) * 100]
    where [J] is the set of taxonomy skills detected in the job
    description: the quotient is rounded to binary64, then the product.
    It is a number (not NaN, not an infinity) between 0 and 100, within
    [2^-46] of [100 * |matched| / max(|J|, 1)], and it is [0.0] when [J]
    is empty. *)
Theorem C1_skill_match_percentage
        (resume_text jd : string) (c : comparison) :
  analyze_skills resume_text (Some jd) = Comparison c ->
  let matched := List.length (matched_skills c) in
  let job_side := detected_skills (PyStr.lower jd) in
  let total := Nat.max (List.length job_side) 1 in
  skill_match_percentage_binary64 c = Binary64.percentage matched total
  /\ (exists value,
         Binary64.to_Q (skill_match_percentage_binary64 c) = Some value
         /\ 0 <= value <= 100
         /\ Qabs (value
                  - 100 * inject_Z (Z.of_nat matched)
                    / inject_Z (Z.of_nat total))
            <= 1 # 2 ^ 46)
  /\ (job_side = [] ->
      skill_match_percentage_binary64 c = S754_zero false).
Proof.
  unfold analyze_skills. destruct (PyStr.truthy jd); [|discriminate].
  intros H. comparison_inv H c.
  cbn [matched_skills skill_match_percentage_binary64].
  rewrite sorted_length, job_skill_total_detected.
  pose proof (matched_length (scan_text (PyStr.lower resume_text))
                (scan_text (PyStr.lower jd))) as Hle.
  assert (Hn : List.length
                 (List.concat (values (scan_text (PyStr.lower jd))))
               = List.length (detected_skills (PyStr.lower jd)))
    by now rewrite scan_text_detected, detected_profile_values.
  rewrite Hn in Hle. clear Hn.
  pose proof (detected_skills_length (PyStr.lower jd)) as Hmax.
  set (m := List.length _) in *.
  set (n := List.length (detected_skills _)) in *.
  cbv zeta. split; [reflexivity|]. split.
  - assert (Hnear : Binary64.near_percentage
                      (Binary64.percentage m (Nat.max n 1))
                      (100 * inject_Z (Z.of_nat m)
                       / inject_Z (Z.of_nat (Nat.max n 1)))
                    = true) by (apply percentage_near; lia).
    unfold Binary64.near_percentage in Hnear.
    destruct (Binary64.to_Q (Binary64.percentage m (Nat.max n 1)))
      as [value|]; [|discriminate].
    apply andb_true_iff in Hnear. destruct Hnear as [Hb Herr].
    apply andb_true_iff in Hb. destruct Hb as [H0 H100].
    apply Qle_bool_iff in H0, H100, Herr.
    exists value. repeat split; assumption.
  - intros E. apply (f_equal (@List.length string)) in E. fold n in E.
    simpl in E. assert (m = 0)%nat as -> by lia. rewrite E. reflexivity.
Qed.

Lemma C1_skill_match_percentage_witness :
  exists c,
    analyze_skills "Python and React" (Some "python, docker, aws")
    = Comparison c
    /\ skill_match_percentage_binary64 c = Binary64.percentage 1 3.
Proof.
  eexists. split; [vm_compute; reflexivity|].
  apply (C1_skill_match_percentage "Python and React"
           "python, docker, aws").
  vm_compute. reflexivity.
Defined.

(** C1 as stated fails: with one of three job skills matched the code
    stores [1 / 3 * 100 = 33.33333333333333], which is neither the
    rational [100 / 3] nor the float [100 * 1 / 3 = 33.333333333333336]. *)
Lemma C1_exact_formula_counterexample :
  exists c value,
    analyze_skills "Python" (Some "python, java, go") = Comparison c
    /\ List.length (matched_skills c) = 1%nat
    /\ List.length (detected_skills (PyStr.lower "python, java, go")) = 3%nat
    /\ Binary64.to_Q (skill_match_percentage_binary64 c) = Some value
    /\ ~ value == 100 * 1 / 3
    /\ skill_match_percentage_binary64 c
       = S754_finite false 4691249611844266 (-47)
    /\ Binary64.percentage_product_first 1 3
       = S754_finite false 4691249611844267 (-47).
Proof.
  do 2 eexists. split; [vm_compute; reflexivity|].
  split; [vm_compute; reflexivity|].
  split; [vm_compute; reflexivity|].
  split; [vm_compute; reflexivity|].
  split; [|split; vm_compute; reflexivity].
  intros E. vm_compute in E. discriminate E.
Qed.

(** A non-empty job description always gives the comparison. *)
Lemma comparison_returned (resume_text jd : string) :
  jd <> "" ->
  exists c, analyze_skills resume_text (Some jd) = Comparison c.
Proof.
  intros H. unfold analyze_skills.
  destruct jd; [congruence|]. cbn [PyStr.truthy]. eauto.
Qed.

End AnalyzeSkills.

(** ** Claims on [get_skill_suggestions] *)

Section Suggestions.

Import PyDict SkillAnalyzer.
Local Open Scope nat_scope.

Variable missing : dict (list string).

Let learn (category : string) : list (string * string) :=
  map (fun skill => (category, learn_text category skill))
      (firstn 2 (get_default category [] missing)).

Let other (category : string) : list (string * string) :=
  map (fun skill => (category, add_text skill))
      (firstn 1 (get_default category [] missing)).

Lemma slice_to_map {A B} (f : A -> B) (l : list A) (n : Z) :
  map f (slice_to l n) = slice_to (map f l) n.
Proof.
  unfold slice_to. rewrite length_map.
  destruct (0 <=? n)%Z; now rewrite firstn_map.
Qed.

Lemma add_priority_erase (cats : list string)
      (acc : list (string * string)) :
  map snd (fold_left (add_priority_tagged missing) cats acc)
  = fold_left (add_priority missing) cats (map snd acc).
Proof.
  revert acc. induction cats as [|c cats IH]; intros acc; simpl.
  - reflexivity.
  - rewrite IH. f_equal. unfold add_priority_tagged, add_priority.
    destruct (mem c missing); [|reflexivity].
    now rewrite map_app, map_map.
Qed.

Lemma add_remaining_erase (n : Z) (cats : list string)
      (acc : list (string * string)) :
  map snd (add_remaining_tagged missing n cats acc)
  = add_remaining missing n cats (map snd acc).
Proof.
  revert acc. induction cats as [|c cats IH]; intros acc; simpl.
  - reflexivity.
  - rewrite length_map.
    destruct (n <=? Z.of_nat (List.length acc))%Z; [reflexivity|].
    rewrite IH. now rewrite map_app, map_map.
Qed.

(** Erasing the labels of the labelled run gives the run of the
    source. *)
Lemma tagged_erase (n : Z) :
  map snd (get_skill_suggestions_tagged missing n)
  = get_skill_suggestions missing n.
Proof.
  unfold get_skill_suggestions_tagged, get_skill_suggestions.
  rewrite slice_to_map. f_equal.
  pose proof (add_priority_erase priority_categories []) as E.
  simpl map in E. rewrite <- E, length_map.
  destruct (_ <? n)%Z; [|reflexivity].
  apply add_remaining_erase.
Qed.

Lemma add_priority_fold (cats : list string)
      (acc : list (string * string)) :
  fold_left (add_priority_tagged missing) cats acc
  = acc ++ flat_map learn cats.
Proof.
  revert acc. induction cats as [|c cats IH]; intros acc; simpl.
  - now rewrite app_nil_r.
  - rewrite IH, app_assoc. do 2 f_equal.
    unfold add_priority_tagged, learn, mem, get_default.
    destruct (get c missing); simpl; [reflexivity|].
    now rewrite app_nil_r.
Qed.

(** The [break] only skips what the final cut would drop. *)
Lemma add_remaining_cut (n : nat) (cats : list string)
      (acc : list (string * string)) :
  firstn n (add_remaining_tagged missing (Z.of_nat n) cats acc)
  = firstn n (acc ++ flat_map other cats).
Proof.
  revert acc. induction cats as [|c cats IH]; intros acc; simpl.
  - now rewrite app_nil_r.
  - destruct (Z.leb_spec (Z.of_nat n) (Z.of_nat (List.length acc))) as [H|H].
    + rewrite firstn_app.
      replace (n - List.length acc) with 0 by lia.
      now rewrite app_nil_r.
    + rewrite IH. now rewrite <- app_assoc.
Qed.

Lemma other_by_entry (l : dict (list string)) :
  (forall e, In e l -> get (fst e) missing = Some (snd e)) ->
  flat_map other
           (filter (fun cat => negb (is_priority cat)) (keys l))
  = flat_map
      (fun entry =>
         map (fun skill => (fst entry, add_text skill))
             (firstn 1 (snd entry)))
      (filter (fun entry => negb (is_priority (fst entry))) l).
Proof.
  induction l as [|e l IH]; intros H; simpl; [reflexivity|].
  assert (IH' := IH (fun e' He' => H e' (or_intror He'))).
  destruct (negb (is_priority (fst e))); simpl; rewrite IH'; [|reflexivity].
  f_equal. unfold other, get_default. now rewrite (H e (or_introl eq_refl)).
Qed.

(** For a limit that is not negative, the labelled run is the list
    the specification describes. *)
Lemma tagged_spec (n : nat) :
  NoDup (keys missing) ->
  get_skill_suggestions_tagged missing (Z.of_nat n)
  = spec_suggestions missing n.
Proof.
  intros Hnd. unfold get_skill_suggestions_tagged, spec_suggestions.
  rewrite add_priority_fold, app_nil_l.
  change (flat_map learn priority_categories)
    with (spec_priority_part missing).
  unfold slice_to.
  destruct (Z.leb_spec 0 (Z.of_nat n)) as [_|H]; [|lia].
  rewrite Nat2Z.id.
  destruct (Z.ltb_spec (Z.of_nat (List.length (spec_priority_part missing)))
                       (Z.of_nat n)) as [H|H].
  - rewrite add_remaining_cut. do 2 f_equal.
    apply other_by_entry. intros [k v] Hin. now apply get_In.
  - rewrite firstn_app.
    replace (n - List.length (spec_priority_part missing)) with 0 by lia.
    now rewrite app_nil_r.
Qed.

(** *** Counting per category *)

Lemma count_for_app (c : string) (l1 l2 : list (string * string)) :
  count_for c (l1 ++ l2) = count_for c l1 + count_for c l2.
Proof. unfold count_for. now rewrite filter_app, length_app. Qed.

Lemma count_for_le_length (c : string) (l : list (string * string)) :
  count_for c l <= List.length l.
Proof.
  unfold count_for. induction l as [|t l IH]; simpl; [lia|].
  destruct (String.eqb (fst t) c); simpl; lia.
Qed.

Lemma count_for_firstn (c : string) (k : nat)
      (l : list (string * string)) :
  count_for c (firstn k l) <= count_for c l.
Proof.
  rewrite <- (firstn_skipn k l) at 2. rewrite count_for_app. lia.
Qed.

Lemma count_for_other_tag (c c' : string) (l : list (string * string)) :
  Forall (fun t => fst t = c') l -> c' <> c -> count_for c l = 0.
Proof.
  unfold count_for. induction 1 as [|t l Ht _ IH]; intros Hne; simpl.
  - reflexivity.
  - destruct (String.eqb_spec (fst t) c) as [E|_]; [congruence|auto].
Qed.

(** Pieces labelled by the key of the item they come from: a label
    counts at most [k] times per occurrence of the key. *)
Lemma count_for_flat_map {X} (key : X -> string)
      (F : X -> list (string * string)) (k : nat) (xs : list X)
      (c : string) :
  (forall x, Forall (fun t => fst t = key x) (F x)) ->
  (forall x, List.length (F x) <= k) ->
  count_for c (flat_map F xs)
  <= k * count_occ string_dec (map key xs) c.
Proof.
  intros Htag Hlen. induction xs as [|x xs IH]; simpl; [unfold count_for; simpl; lia|].
  rewrite count_for_app.
  destruct (string_dec (key x) c) as [E|E].
  - pose proof (count_for_le_length c (F x)). pose proof (Hlen x). lia.
  - rewrite (count_for_other_tag c (key x)) by auto. lia.
Qed.

Lemma priority_categories_NoDup : NoDup priority_categories.
Proof. apply NoDup_by_nodup. reflexivity. Qed.

Lemma count_priority_part (c : string) :
  count_for c (spec_priority_part missing)
  <= if is_priority c then 2 else 0.
Proof.
  unfold spec_priority_part.
  pose proof (count_for_flat_map (fun x => x) learn 2
                priority_categories c) as H.
  rewrite map_id in H.
  assert (Hc : count_for c (flat_map learn priority_categories)
               <= 2 * count_occ string_dec priority_categories c).
  { apply H; intros x; unfold learn.
    - apply Forall_forall. intros t Ht. apply in_map_iff in Ht.
      now destruct Ht as (s & <- & _).
    - rewrite length_map. apply firstn_le_length. }
  clear H. unfold learn in Hc.
  destruct (is_priority c) eqn:E.
  - pose proof (proj1 (NoDup_count_occ string_dec _)
                  priority_categories_NoDup c). lia.
  - assert (~ In c priority_categories) as Hn.
    { unfold is_priority in E. rewrite <- mem_In. congruence. }
    apply (count_occ_not_In string_dec) in Hn. lia.
Qed.

Lemma count_other_part (c : string) :
  NoDup (keys missing) ->
  count_for c (spec_other_part missing)
  <= if is_priority c then 0 else 1.
Proof.
  intros Hnd. unfold spec_other_part.
  set (kept := filter (fun entry => negb (is_priority (fst entry))) missing).
  set (F := fun entry : string * list string =>
              map (fun skill => (fst entry, add_text skill))
                  (firstn 1 (snd entry))).
  assert (Hc : count_for c (flat_map F kept)
               <= 1 * count_occ string_dec (map fst kept) c).
  { apply count_for_flat_map; intros x; unfold F.
    - apply Forall_forall. intros t Ht. apply in_map_iff in Ht.
      now destruct Ht as (s & <- & _).
    - rewrite length_map. apply firstn_le_length. }
  assert (Hk : map fst kept
               = filter (fun cat => negb (is_priority cat)) (keys missing)).
  { unfold kept, keys. now rewrite filter_map_swap. }
  rewrite Hk in Hc.
  destruct (is_priority c) eqn:E.
  - assert (~ In c (filter (fun cat => negb (is_priority cat))
                           (keys missing))) as Hn.
    { rewrite filter_In, E. simpl. intros [_ ?]. discriminate. }
    apply (count_occ_not_In string_dec) in Hn. lia.
  - pose proof (proj1 (NoDup_count_occ string_dec _)
                  (NoDup_filter (fun cat => negb (is_priority cat)) Hnd) c).
    lia.
Qed.

Lemma priority_part_tags :
  Forall (fun t => is_priority (fst t) = true) (spec_priority_part missing).
Proof.
  unfold spec_priority_part. apply Forall_forall. intros t Ht.
  apply in_flat_map in Ht. destruct Ht as (c & Hc & Ht).
  apply in_map_iff in Ht. destruct Ht as (s & <- & _). simpl.
  now apply mem_In.
Qed.

Lemma other_part_tags :
  Forall (fun t => is_priority (fst t) = false) (spec_other_part missing).
Proof.
  unfold spec_other_part. apply Forall_forall. intros t Ht.
  apply in_flat_map in Ht. destruct Ht as (e & He & Ht).
  apply filter_In in He. destruct He as [_ He].
  apply in_map_iff in Ht. destruct Ht as (s & <- & _). simpl.
  now apply negb_true_iff.
Qed.

Lemma Forall_firstn_of {A} (P : A -> Prop) (k : nat) (l : list A) :
  Forall P l -> Forall P (firstn k l).
Proof.
  intros H. rewrite <- (firstn_skipn k l) in H.
  now apply Forall_app in H.
Qed.

End Suggestions.

Section SuggestionClaims.

Import PyDict SkillAnalyzer.

(** C4, for limits that are not negative.  For every mapping of
    missing skills (a dictionary: no key twice) and every limit
    [>= 0], [get_skill_suggestions] returns at most [limit]
    suggestions; at most 2 of them are made for each priority category
    and at most 1 for each other category; and the list is the cut to
    [limit] of the priority suggestions (categories in the fixed
    order, skills in their listed order) followed by the suggestions
    of the other categories (in the order of the mapping), so that
    every priority suggestion comes before every other one. *)
Theorem C4_suggestions_within_limit
        (missing : dict (list string)) (limit : Z) :
  NoDup (keys missing) ->
  (0 <= limit)%Z ->
  let out := get_skill_suggestions_tagged missing limit in
  map snd out = get_skill_suggestions missing limit
  /\ (Z.of_nat (List.length (get_skill_suggestions missing limit))
      <= limit)%Z
  /\ (forall category,
        (count_for category out
         <= if is_priority category then 2 else 1)%nat)
  /\ out = spec_suggestions missing (Z.to_nat limit)
  /\ exists first_part second_part,
      out = first_part ++ second_part
      /\ Forall (fun t => is_priority (fst t) = true) first_part
      /\ Forall (fun t => is_priority (fst t) = false) second_part.
Proof.
  intros Hnd Hlim out.
  assert (Hspec : out = spec_suggestions missing (Z.to_nat limit)).
  { unfold out. rewrite <- (Z2Nat.id limit) at 1 by exact Hlim.
    now apply tagged_spec. }
  split; [apply tagged_erase|].
  split.
  { rewrite <- tagged_erase, length_map. fold out. rewrite Hspec.
    unfold spec_suggestions.
    pose proof (firstn_le_length (Z.to_nat limit)
                  (spec_priority_part missing ++ spec_other_part missing)).
    lia. }
  split.
  { intros category. rewrite Hspec. unfold spec_suggestions.
    pose proof (count_for_firstn category (Z.to_nat limit)
                  (spec_priority_part missing ++ spec_other_part missing))
      as Hcut.
    rewrite count_for_app in Hcut.
    pose proof (count_priority_part missing category).
    pose proof (count_other_part missing category Hnd).
    destruct (is_priority category); lia. }
  split; [exact Hspec|].
  rewrite Hspec. unfold spec_suggestions. rewrite firstn_app.
  eexists _, _. split; [reflexivity|].
  split; apply Forall_firstn_of;
    [apply priority_part_tags|apply other_part_tags].
Qed.

Lemma C4_suggestions_within_limit_witness :
  let missing :=
    [("soft_skills", ["leadership"; "teamwork"]);
     ("cloud_devops", ["aws"; "gcp"; "chef"]);
     ("programming_languages", ["go"])] in
  get_skill_suggestions missing 3
  = ["Consider learning go to improve your programming languages skills";
     "Consider learning aws to improve your cloud devops skills";
     "Consider learning gcp to improve your cloud devops skills"]
  /\ (Z.of_nat (List.length (get_skill_suggestions missing 3)) <= 3)%Z.
Proof.
  intros missing. split; [vm_compute; reflexivity|].
  assert (Hnd : NoDup (keys missing))
    by (apply NoDup_by_nodup; vm_compute; reflexivity).
  assert (Hlim : (0 <= 3)%Z) by lia.
  exact (proj1 (proj2 (C4_suggestions_within_limit missing 3 Hnd Hlim))).
Defined.

(** C4 as stated fails for a negative limit: the final slice
    [suggestions[:-1]] only drops the last suggestion, so one
    suggestion is returned for the limit -1. *)
Lemma C4_negative_limit_counterexample :
  get_skill_suggestions [("programming_languages", ["python"; "java"])] (-1)
  = ["Consider learning python to improve your programming languages skills"]
  /\ ~ (Z.of_nat
          (List.length
             (get_skill_suggestions
                [("programming_languages", ["python"; "java"])] (-1)))
        <= -1)%Z.
Proof.
  split; [vm_compute; reflexivity|].
  intros H. vm_compute in H. apply H. reflexivity.
Qed.

End SuggestionClaims.

(** ** Claims on the failure policy of the analyzer *)

Create HintDb caught.

Section FailurePolicy.

Import PyExn PyDict SkillAnalyzer Dynamic.

Lemma raise_caught {A} (c : cls) (msg : string) :
  is_Exception {| exn_class := c; exn_str := msg |} = true ->
  raises_only_Exception (@raise A c msg).
Proof. intros H e [= <-]. exact H. Qed.

Lemma returned_caught {A} (a : A) : raises_only_Exception (Returned a).
Proof. intros e [=]. Qed.

Lemma bind_caught {A B} (m : outcome A) (k : A -> outcome B) :
  raises_only_Exception m ->
  (forall a, raises_only_Exception (k a)) ->
  raises_only_Exception (bind m k).
Proof.
  intros Hm Hk e. destruct m as [a|e']; simpl.
  - apply Hk.
  - intros [= <-]. now apply Hm.
Qed.

(** A guarded body whose exceptions derive from [Exception] always
    returns: its own value or, after an exception, the default. *)
Lemma guarded_returns {A} (body : outcome A) (dflt : A) :
  raises_only_Exception body ->
  exists a,
    try_except_Exception body (fun _ => Returned dflt) = Returned a
    /\ (forall e, body = Raised e -> a = dflt).
Proof.
  intros H. destruct body as [a|e]; simpl.
  - exists a. split; [reflexivity|]. intros e [=].
  - rewrite (H e eq_refl). exists dflt. split; [reflexivity|]. reflexivity.
Qed.

#[local] Hint Resolve returned_caught : caught.

Lemma receiver_of_lower_caught (v : pyval) :
  raises_only_Exception (receiver_of_lower v).
Proof. destruct v; simpl; auto with caught; now apply raise_caught. Qed.

Lemma contains_key_caught (key : string) (v : pyval) :
  raises_only_Exception (contains_key key v).
Proof. destruct v; simpl; auto with caught; now apply raise_caught. Qed.

Lemma subscript_caught (v : pyval) (key : string) :
  raises_only_Exception (subscript v key).
Proof.
  destruct v; simpl; auto with caught; try now apply raise_caught.
  destruct (get key d); auto with caught. now apply raise_caught.
Qed.

Lemma dict_keys_caught (v : pyval) : raises_only_Exception (dict_keys v).
Proof. destruct v; simpl; auto with caught; now apply raise_caught. Qed.

Lemma as_int_caught (v : pyval) : raises_only_Exception (as_int v).
Proof. destruct v; simpl; auto with caught; now apply raise_caught. Qed.

#[local] Hint Resolve receiver_of_lower_caught contains_key_caught subscript_caught
     dict_keys_caught as_int_caught : caught.

Lemma analyze_skills_body_caught (resume_text job_description : pyval) :
  raises_only_Exception (analyze_skills_body resume_text job_description).
Proof.
  unfold analyze_skills_body. apply bind_caught; [auto with caught|].
  intros text. destruct (truthy job_description); [|auto with caught].
  apply bind_caught; auto with caught.
Qed.

Lemma analyze_skills_returns (resume_text job_description : pyval) :
  exists a,
    Dynamic.analyze_skills resume_text job_description = Returned a
    /\ (forall e,
          analyze_skills_body resume_text job_description = Raised e ->
          a = empty_mapping).
Proof. apply guarded_returns, analyze_skills_body_caught. Qed.

Lemma get_skill_gap_body_caught (resume_text job_description : pyval) :
  raises_only_Exception (get_skill_gap_body resume_text job_description).
Proof.
  unfold get_skill_gap_body.
  destruct (analyze_skills_returns resume_text PyNone) as (r & -> & _).
  destruct (analyze_skills_returns job_description PyNone) as (j & -> & _).
  simpl. auto with caught.
Qed.

Lemma add_priority_caught (missing : pyval) (cats : list string)
      (acc : outcome (list string)) :
  raises_only_Exception acc ->
  raises_only_Exception (fold_left (Dynamic.add_priority missing) cats acc).
Proof.
  revert acc. induction cats as [|c cats IH]; intros acc H; simpl.
  - exact H.
  - apply IH. unfold Dynamic.add_priority.
    apply bind_caught; [exact H|]. intros suggestions.
    apply bind_caught; [auto with caught|]. intros [|]; [|auto with caught].
    apply bind_caught; auto with caught.
Qed.

Lemma get_skill_suggestions_body_caught (missing num_suggestions : pyval) :
  raises_only_Exception (get_skill_suggestions_body missing num_suggestions).
Proof.
  unfold get_skill_suggestions_body.
  apply bind_caught; [apply add_priority_caught; auto with caught|].
  intros suggestions. apply bind_caught; [auto with caught|].
  intros num. apply bind_caught; [|auto with caught].
  destruct (_ <? num)%Z; [|auto with caught].
  apply bind_caught; [auto with caught|]. intros all_keys.
  destruct missing; auto with caught; now apply raise_caught.
Qed.

(** Against a job side without skills nothing is missing. *)
Lemma gap_of_empty_job (resume : analysis) (cats : list string)
      (d : dict (list string)) :
  fold_left (gap_step resume empty_mapping) cats d = d.
Proof.
  revert d. induction cats as [|c cats IH]; intros d; simpl; [reflexivity|].
  now rewrite IH.
Qed.

(** C3, as the code behaves.  Whatever objects are passed, none of
    the three methods raises.  [analyze_skills] returns the empty
    mapping when its body raises, and [get_skill_suggestions] the empty
    list.  The body of [get_skill_gap] never raises: its two calls of
    [analyze_skills] have absorbed their errors, so its handler is not
    entered and it returns the gap of the two mappings they returned.
    That gap is empty after an error on the job description; after an
    error on the resume it is the gap against an empty profile, which
    need not be empty. *)
Theorem C3_analyzer_never_raises
        (resume_text job_description missing num_suggestions : pyval) :
  (exists a,
      Dynamic.analyze_skills resume_text job_description = Returned a
      /\ (forall e,
            analyze_skills_body resume_text job_description = Raised e ->
            a = empty_mapping))
  /\ (exists resume job,
        Dynamic.analyze_skills resume_text PyNone = Returned resume
        /\ Dynamic.analyze_skills job_description PyNone = Returned job
        /\ get_skill_gap_body resume_text job_description
           = Returned (skill_gaps_of resume job)
        /\ Dynamic.get_skill_gap resume_text job_description
           = Returned (skill_gaps_of resume job)
        /\ (forall e,
              analyze_skills_body job_description PyNone = Raised e ->
              skill_gaps_of resume job = [])
        /\ (forall e,
              analyze_skills_body resume_text PyNone = Raised e ->
              resume = empty_mapping))
  /\ (exists suggestions,
        Dynamic.get_skill_suggestions missing num_suggestions
        = Returned suggestions
        /\ (forall e,
              get_skill_suggestions_body missing num_suggestions
              = Raised e ->
              suggestions = [])).
Proof.
  split; [apply analyze_skills_returns|].
  split; [|apply guarded_returns, get_skill_suggestions_body_caught].
  destruct (analyze_skills_returns resume_text PyNone) as (r & Er & Hr).
  destruct (analyze_skills_returns job_description PyNone) as (j & Ej & Hj).
  exists r, j.
  assert (Hbody : get_skill_gap_body resume_text job_description
                  = Returned (skill_gaps_of r j)).
  { unfold get_skill_gap_body. rewrite Er, Ej. reflexivity. }
  split; [exact Er|]. split; [exact Ej|]. split; [exact Hbody|].
  split; [unfold Dynamic.get_skill_gap; rewrite Hbody; reflexivity|].
  split; [|exact Hr].
  intros e He. rewrite (Hj e He). unfold skill_gaps_of.
  apply gap_of_empty_job.
Qed.

(** C3 as stated fails for [get_skill_gap]: with [None] for the resume
    the inner [analyze_skills] raises and is caught, and the method
    returns a mapping that is not empty. *)
Lemma C3_gap_after_internal_error_counterexample :
  analyze_skills_body PyNone PyNone
  = raise AttributeError "object has no attribute 'lower'"
  /\ Dynamic.get_skill_gap PyNone (PyStr "Python and Docker")
     = Returned [("programming_languages", ["python"]);
                 ("cloud_devops", ["docker"])]
  /\ Dynamic.get_skill_gap PyNone (PyStr "Python and Docker")
     <> Returned [].
Proof.
  split; [reflexivity|].
  assert (E : Dynamic.get_skill_gap PyNone (PyStr "Python and Docker")
              = Returned [("programming_languages", ["python"]);
                          ("cloud_devops", ["docker"])])
    by (vm_compute; reflexivity).
  split; [exact E|]. rewrite E. discriminate.
Qed.

(** The bodies do raise on some arguments, and the typed functions
    are what the guarded ones compute on well-typed arguments. *)
Example analyze_skills_on_None :
  analyze_skills_body PyNone (PyStr "python")
  = raise AttributeError "object has no attribute 'lower'"
  /\ Dynamic.analyze_skills PyNone (PyStr "python") = Returned empty_mapping.
Proof. split; reflexivity. Qed.

Example get_skill_suggestions_on_None :
  get_skill_suggestions_body PyNone (PyInt 5)
  = raise TypeError "argument is not iterable"
  /\ Dynamic.get_skill_suggestions PyNone (PyInt 5) = Returned [].
Proof. split; reflexivity. Qed.

Lemma analyze_skills_on_strings (resume_text job_description : string) :
  Dynamic.analyze_skills (PyStr resume_text) (PyStr job_description)
  = Returned
      (SkillAnalyzer.analyze_skills resume_text (Some job_description)).
Proof. destruct job_description; reflexivity. Qed.

Lemma get_skill_gap_on_strings (resume_text job_description : string) :
  Dynamic.get_skill_gap (PyStr resume_text) (PyStr job_description)
  = Returned (SkillAnalyzer.get_skill_gap resume_text job_description).
Proof.
  unfold Dynamic.get_skill_gap, get_skill_gap_body, Dynamic.analyze_skills,
    analyze_skills_body, SkillAnalyzer.get_skill_gap.
  cbn [receiver_of_lower truthy bind try_except_Exception].
  reflexivity.
Qed.

Lemma get_skill_suggestions_on_dict (missing : dict (list string))
      (num_suggestions : Z) :
  Dynamic.get_skill_suggestions (PySkillDict missing) (PyInt num_suggestions)
  = Returned (SkillAnalyzer.get_skill_suggestions missing num_suggestions).
Proof.
  unfold Dynamic.get_skill_suggestions, get_skill_suggestions_body,
    SkillAnalyzer.get_skill_suggestions.
  assert (E : forall cats acc,
             fold_left (Dynamic.add_priority (PySkillDict missing)) cats
                       (Returned acc)
             = Returned
                 (fold_left (SkillAnalyzer.add_priority missing) cats acc)).
  { induction cats as [|c cats IH]; intros acc; simpl; [reflexivity|].
    rewrite <- IH. f_equal.
    unfold Dynamic.add_priority, SkillAnalyzer.add_priority. simpl.
    unfold mem, get_default. destruct (get c missing); reflexivity. }
  rewrite E. simpl.
  destruct (_ <? num_suggestions)%Z; reflexivity.
Qed.

End FailurePolicy.

(** ** Claims on the rate-limit fallback *)

Section Fallback.

Import PyExn SkillAnalyzer App.



(** The second call can be the one that is refused. *)
Example rate_limit_on_second_call :
  let engine :=
    {| analyze_resume := fun _ _ => Returned JNone;
       analyze_score_matrix := fun _ _ _ _ _ =>
         raise ValueError "Rate limit exceeded" |} in
  get_enhanced_llm_analysis (Some engine) "a" "b" 80 60 (Profile [])
  = Returned (fallback_llm_analysis 80, fallback_score_matrix 80 60,
              Some "Rate limit exceeded. Using basic analysis.").
Proof. reflexivity. Qed.

(** With the name unbound, the [NameError] is reported as an error
    text and nothing is raised. *)
Example unbound_llm_engine :
  get_enhanced_llm_analysis None "a" "b" 80 60 (Profile [])
  = Returned (JNone, JNone, Some "name 'llm_engine' is not defined").
Proof. reflexivity. Qed.

End Fallback.

(** ** Claims on [generate_recommendations] *)

Section Recommendations.

Import SkillAnalyzer App.

Lemma Qltb_lt (a b : Q) : Qltb a b = true <-> a < b.
Proof.
  unfold Qltb. rewrite negb_true_iff. split.
  - intros H. apply Qnot_le_lt. intros Hle.
    apply Qle_bool_iff in Hle. congruence.
  - intros H. destruct (Qle_bool b a) eqn:E; [|reflexivity].
    apply Qle_bool_iff in E. exfalso. now apply (Qlt_not_le a b).
Qed.

Lemma score_tier_Strong (ats_score : Q) :
  score_tier ats_score = Strong <-> 80 <= ats_score.
Proof.
  unfold score_tier. rewrite <- Qle_bool_iff.
  destruct (Qle_bool 80 ats_score); [tauto|].
  destruct (Qle_bool 60 ats_score); split; congruence.
Qed.

Lemma score_tier_Good (ats_score : Q) :
  score_tier ats_score = Good <-> 60 <= ats_score /\ ats_score < 80.
Proof.
  unfold score_tier. rewrite <- Qle_bool_iff, <- Qltb_lt. unfold Qltb.
  destruct (Qle_bool 80 ats_score), (Qle_bool 60 ats_score); simpl;
    intuition congruence.
Qed.

Lemma score_tier_Weak (ats_score : Q) :
  score_tier ats_score = Weak <-> ats_score < 60.
Proof.
  unfold score_tier. rewrite <- Qltb_lt. unfold Qltb.
  destruct (Qle_bool 80 ats_score) eqn:E80, (Qle_bool 60 ats_score) eqn:E60;
    simpl; try intuition congruence.
  exfalso. apply Qle_bool_iff in E80.
  assert (H : 60 <= ats_score)
    by (eapply Qle_trans; [|exact E80]; discriminate).
  apply Qle_bool_iff in H. congruence.
Qed.

(** C5.  The score rules have three branches and each score runs
    exactly one of them, namely the one of its band: at 80 and above
    only the strength "Strong ATS compatibility" is added; from 60 up
    to 80 (excluded) only the strength "Good basic ATS formatting" and
    two action items; below 60 only the weakness "Needs ATS
    optimization" and four action items. *)
Theorem C5_exclusive_score_tiers
        (ats_score : Q) (r : recommendations) :
  (score_tier ats_score = Strong <-> 80 <= ats_score)
  /\ (score_tier ats_score = Good <-> 60 <= ats_score /\ ats_score < 80)
  /\ (score_tier ats_score = Weak <-> ats_score < 60)
  /\ score_rules ats_score r
     = match score_tier ats_score with
       | Strong =>
           {| strengths := strengths r ++ ["Strong ATS compatibility"];
              weaknesses := weaknesses r;
              action_items := action_items r |}
       | Good =>
           {| strengths := strengths r ++ ["Good basic ATS formatting"];
              weaknesses := weaknesses r;
              action_items :=
                action_items r
                  ++ ["Add more industry-specific keywords";
                      "Enhance section headers for better visibility"] |}
       | Weak =>
           {| strengths := strengths r;
              weaknesses := weaknesses r ++ ["Needs ATS optimization"];
              action_items :=
                action_items r
                  ++ ["Add relevant keywords from the job description";
                      "Improve section headers (Experience, Education, Skills)";
                      "Use bullet points for better readability";
                      "Include contact information and professional links"] |}
       end.
Proof.
  split; [apply score_tier_Strong|].
  split; [apply score_tier_Good|].
  split; [apply score_tier_Weak|].
  unfold score_rules. destruct (score_tier ats_score); reflexivity.
Qed.

(** The recommendations when the function reaches a [return]. *)
Lemma run_passes (skill_analysis : analysis) (ats_score : Q)
      (llm_improvements : option (list string))
      (rest : list (nat * stmt)) (r : recommendations) :
  run (passes skill_analysis ats_score llm_improvements ++ rest) r
  = run rest
        (format_pass ats_score
           (merge_improvements llm_improvements
              (skill_rules skill_analysis (score_rules ats_score r)))).
Proof. reflexivity. Qed.

(** C9.  For every input the function returns through the first
    [return recommendations] (line 345); the second one (line 347) is
    never reached, and whatever follows the first [return] changes
    nothing. *)
Theorem C9_second_return_unreachable
        (skill_analysis : analysis) (ats_score : Q)
        (llm_improvements : option (list string)) :
  let final :=
    format_pass ats_score
      (merge_improvements llm_improvements
         (skill_rules skill_analysis
            (score_rules ats_score empty_recommendations))) in
  run (generate_recommendations_body skill_analysis ats_score
         llm_improvements) empty_recommendations
  = Returned_at 345 final
  /\ (forall dead_code,
        run (passes skill_analysis ats_score llm_improvements
               ++ (345%nat, Return) :: dead_code) empty_recommendations
        = Returned_at 345 final)
  /\ generate_recommendations skill_analysis ats_score llm_improvements
     = Some final.
Proof.
  intros final. unfold generate_recommendations,
    generate_recommendations_body.
  rewrite run_passes. split; [reflexivity|].
  split; [|reflexivity]. intros dead_code. now rewrite run_passes.
Qed.

End Recommendations.

Section Deduplication.

Import SkillAnalyzer App.

Lemma covered_iff (s : string) (items : list string) :
  covered s items = true
  <-> exists item,
      In item items
      /\ PyStr.contains (PyStr.lower s) (PyStr.lower item) = true.
Proof. unfold covered. apply existsb_exists. Qed.

Lemma covered_app (s : string) (items more : list string) :
  covered s (items ++ more) = covered s items || covered s more.
Proof. unfold covered. apply existsb_app. Qed.

(** An item that is not covered differs, once lowered, from every
    item of the list. *)
Lemma not_covered_fresh (s : string) (items : list string) :
  covered s items = false ->
  ~ In (PyStr.lower s) (map PyStr.lower items).
Proof.
  intros H Hin. apply in_map_iff in Hin. destruct Hin as (item & E & Hin).
  assert (C : covered s items = true).
  { apply covered_iff. exists item. split; [exact Hin|].
    rewrite E. apply contains_refl. }
  congruence.
Qed.

Lemma no_case_duplicates_snoc (s : string) (items : list string) :
  no_case_duplicates items ->
  ~ In (PyStr.lower s) (map PyStr.lower items) ->
  no_case_duplicates (items ++ [s]).
Proof.
  unfold no_case_duplicates. intros Hnd Hfresh. rewrite map_app. simpl.
  eapply Permutation_NoDup; [apply Permutation_cons_append|].
  now constructor.
Qed.

Lemma merge_step_keeps (items : list string) (s : string) :
  no_case_duplicates items -> no_case_duplicates (merge_step items s).
Proof.
  intros H. unfold merge_step. destruct (covered s items) eqn:E.
  - exact H.
  - apply no_case_duplicates_snoc; [exact H|now apply not_covered_fresh].
Qed.

Lemma format_step_merge_step (items : list string) (s : string) :
  format_step items s = merge_step items s.
Proof. unfold format_step, merge_step. now destruct (covered s items). Qed.

Lemma merge_fold_keeps (l items : list string) :
  no_case_duplicates items ->
  no_case_duplicates (fold_left merge_step l items).
Proof.
  revert items. induction l as [|s l IH]; intros items H; simpl.
  - exact H.
  - apply IH. now apply merge_step_keeps.
Qed.

Lemma format_fold_merge_fold (l items : list string) :
  fold_left format_step l items = fold_left merge_step l items.
Proof.
  revert items. induction l as [|s l IH]; intros items; simpl.
  - reflexivity.
  - now rewrite format_step_merge_step, IH.
Qed.

(** The loops only append. *)
Lemma merge_fold_extends (l items : list string) :
  exists more, fold_left merge_step l items = items ++ more.
Proof.
  revert items. induction l as [|s l IH]; intros items; simpl.
  - exists []. now rewrite app_nil_r.
  - destruct (IH (merge_step items s)) as (more & ->).
    unfold merge_step. destruct (covered s items).
    + now exists more.
    + exists (s :: more). now rewrite <- app_assoc.
Qed.

Lemma merge_step_covers (items : list string) (s : string) :
  covered s (merge_step items s) = true.
Proof.
  unfold merge_step. destruct (covered s items) eqn:E; [exact E|].
  rewrite covered_app, E. simpl. unfold covered. simpl.
  now rewrite contains_refl.
Qed.

(** After the loop, every improvement is covered by an action item. *)
Lemma merge_fold_covers (l items : list string) (s : string) :
  In s l \/ covered s items = true ->
  covered s (fold_left merge_step l items) = true.
Proof.
  revert items. induction l as [|x l IH]; intros items H; simpl.
  - destruct H as [[]|H]. exact H.
  - apply IH. destruct H as [[->|H]|H].
    + right. apply merge_step_covers.
    + now left.
    + right. unfold merge_step. destruct (covered x items); [exact H|].
      now rewrite covered_app, H.
Qed.

Lemma lower_consider (s : string) :
  PyStr.lower ("Consider developing: " ++ s)%string
  = ("consider developing: " ++ PyStr.lower s)%string.
Proof. reflexivity. Qed.

Ltac lower_constants :=
  repeat match goal with
         | |- context [PyStr.lower ?s] =>
             is_ground s;
             let v := eval vm_compute in (PyStr.lower s) in
             change (PyStr.lower s) with v
         end.

Ltac distinct_strings :=
  repeat (apply NoDup_cons;
          [ let H := fresh "H" in
            cbn [In]; intros H;
            repeat (destruct H as [H|H]; [discriminate H|]);
            exact H
          | ]);
  apply NoDup_nil.

(** The action items written by the score rules and the skill rules
    are pairwise different, whatever the missing skills are. *)
Lemma base_items_distinct (skill_analysis : analysis) (ats_score : Q) :
  no_case_duplicates
    (action_items
       (skill_rules skill_analysis
          (score_rules ats_score empty_recommendations))).
Proof.
  unfold no_case_duplicates, skill_rules, score_rules.
  destruct (score_tier ats_score);
    destruct (analysis_truthy skill_analysis);
    destruct (nonempty (analysis_get "matched_skills" skill_analysis));
    destruct (nonempty (analysis_get "missing_skills" skill_analysis));
    cbn [tier_rules add_strength add_weakness extend_actions action_items
         strengths weaknesses empty_recommendations app map];
    rewrite ?lower_consider;
    try generalize (PyStr.lower
                      (PyStr.join ", "
                         (firstn 3 (analysis_get "missing_skills"
                                      skill_analysis))));
    intros; lower_constants; cbn [String.append]; distinct_strings.
Qed.

(** C6.  The action items returned never hold two entries that are
    equal up to case.  Each LLM improvement is skipped when an action
    item already present contains it, case ignored, and is appended
    otherwise; so every improvement ends up covered by an action
    item. *)
Theorem C6_no_case_insensitive_duplicates
        (skill_analysis : analysis) (ats_score : Q)
        (llm_improvements : option (list string)) :
  (exists r,
      generate_recommendations skill_analysis ats_score llm_improvements
      = Some r
      /\ no_case_duplicates (action_items r)
      /\ forall improvement l,
          llm_improvements = Some l -> In improvement l ->
          covered improvement (action_items r) = true)
  /\ (forall items improvement,
        (exists item,
            In item items
            /\ PyStr.contains (PyStr.lower improvement) (PyStr.lower item)
               = true) ->
        merge_step items improvement = items)
  /\ (forall items improvement,
        (forall item,
            In item items ->
            PyStr.contains (PyStr.lower improvement) (PyStr.lower item)
            = false) ->
        merge_step items improvement = items ++ [improvement])
  /\ (forall l r,
        l <> [] ->
        action_items (merge_improvements (Some l) r)
        = fold_left merge_step l (action_items r)).
Proof.
  split; [|split; [|split]].
  - pose proof (base_items_distinct skill_analysis ats_score) as Hbase.
    set (base := skill_rules skill_analysis
                   (score_rules ats_score empty_recommendations)) in *.
    exists (format_pass ats_score
              (merge_improvements llm_improvements base)).
    split; [reflexivity|].
    assert (Hmerged :
              no_case_duplicates
                (action_items (merge_improvements llm_improvements base))).
    { destruct llm_improvements as [[|x l]|]; try exact Hbase.
      cbn [merge_improvements nonempty action_items].
      now apply merge_fold_keeps. }
    split.
    + unfold format_pass. destruct (Qltb ats_score 80); [|exact Hmerged].
      cbn [action_items]. rewrite format_fold_merge_fold.
      now apply merge_fold_keeps.
    + intros improvement l -> Hin.
      assert (Hcov : covered improvement
                       (action_items (merge_improvements (Some l) base))
                     = true).
      { destruct l as [|x l]; [destruct Hin|].
        cbn [merge_improvements nonempty action_items].
        apply (merge_fold_covers (x :: l)). now left. }
      unfold format_pass. destruct (Qltb ats_score 80); [|exact Hcov].
      cbn [action_items]. rewrite format_fold_merge_fold.
      apply (merge_fold_covers format_recommendations). now right.
  - intros items improvement H. apply covered_iff in H.
    unfold merge_step. now rewrite H.
  - intros items improvement H. unfold merge_step.
    destruct (covered improvement items) eqn:E; [|reflexivity].
    apply covered_iff in E. destruct E as (item & Hin & Hc).
    rewrite (H item Hin) in Hc. discriminate.
  - intros [|x l] r H; [congruence|reflexivity].
Qed.

End Deduplication.

(* ================================================================= *)
(** * Further properties *)

(** ** Whole-word search *)

Section WholeWord.

Import PyText.
Local Open Scope string_scope.

Lemma append_assoc (a b c : string) : (a ++ b) ++ c = a ++ b ++ c.
Proof. induction a as [|x a IH]; simpl; [reflexivity|]. now rewrite IH. Qed.

Lemma append_nil_r (a : string) : a ++ "" = a.
Proof. induction a as [|x a IH]; simpl; [reflexivity|]. now rewrite IH. Qed.

Lemma last_char_app (prev : option ascii) (a b : string) :
  last_char prev (a ++ b) = last_char (last_char prev a) b.
Proof. revert prev. induction a as [|x a IH]; intros prev; simpl; auto. Qed.

Lemma last_char_nonempty (prev prev' : option ascii) (c : ascii) (s : string) :
  last_char prev (String c s) = last_char prev' (String c s).
Proof. reflexivity. Qed.

(** The literal is matched exactly when the text starts with it. *)
Lemma literal_spec (prev last : option ascii) (pat text rest : string) :
  Regex.literal prev pat text = Some (last, rest)
  <-> text = pat ++ rest /\ last = last_char prev pat.
Proof.
  revert prev text. induction pat as [|a pat IH]; intros prev text; simpl.
  - split; [intros [= <- <-]; auto|intros [-> ->]; reflexivity].
  - destruct text as [|b text].
    + split; [discriminate|intros [[=] _]].
    + destruct (Ascii.eqb_spec a b) as [->|Hne].
      * rewrite IH. split; intros [E ->]; (split; [|reflexivity]); congruence.
      * split; [discriminate|intros [[= E _] _]; congruence].
Qed.

Lemma match_here_spec (prev : option ascii) (pat text : string) :
  Regex.match_here prev pat text = true
  <-> exists post,
      text = pat ++ post
      /\ Regex.boundary prev text = true
      /\ Regex.boundary (last_char prev pat) post = true.
Proof.
  unfold Regex.match_here. rewrite andb_true_iff. split.
  - intros [Hb H].
    destruct (Regex.literal prev pat text) as [[last rest]|] eqn:E;
      [|discriminate].
    apply literal_spec in E. destruct E as [-> ->]. eauto.
  - intros (post & -> & Hb & He). split; [exact Hb|].
    assert (E : Regex.literal prev pat (pat ++ post)
                = Some (last_char prev pat, post))
      by now apply literal_spec.
    now rewrite E.
Qed.

Lemma search_from_spec (prev : option ascii) (pat text : string) :
  Regex.search_from prev pat text = true
  <-> exists pre post,
      text = pre ++ pat ++ post
      /\ Regex.boundary (last_char prev pre) (pat ++ post) = true
      /\ Regex.boundary (last_char prev (pre ++ pat)) post = true.
Proof.
  revert prev. induction text as [|c text IH]; intros prev; simpl;
    rewrite orb_true_iff, match_here_spec.
  - split.
    + intros [(post & E & Hb & He)|H]; [|discriminate].
      exists "", post. simpl. rewrite <- E. auto.
    + intros (pre & post & E & Hb & He). left.
      destruct pre; [|discriminate]. simpl in *.
      exists post. rewrite E. auto.
  - rewrite IH. split.
    + intros [(post & E & Hb & He)|(pre & post & E & Hb & He)].
      * exists "", post. simpl. rewrite <- E. auto.
      * exists (String c pre), post. simpl. rewrite E. auto.
    + intros (pre & post & E & Hb & He). destruct pre as [|d pre].
      * left. exists post. simpl in *. rewrite <- E in Hb. auto.
      * right. simpl in E. injection E as <- ->. exists pre, post. auto.
Qed.

(** The search succeeds exactly when the pattern occurs as a whole
    word. *)
Lemma search_word_spec (pat text : string) :
  Regex.search_word pat text = true <-> occurs_as_word pat text.
Proof. unfold Regex.search_word, occurs_as_word. apply search_from_spec. Qed.

(** [needle in hay] holds exactly when [needle] is a factor of [hay]. *)
Lemma startswith_spec (p s : string) :
  PyStr.startswith p s = true <-> exists post, s = p ++ post.
Proof.
  revert s. induction p as [|a p IH]; intros s; simpl.
  - split; [eauto|reflexivity].
  - destruct s as [|b s]; [split; [discriminate|intros (? & [=])]|].
    rewrite andb_true_iff, IH. split.
    + intros [E (post & ->)]. apply Ascii.eqb_eq in E. subst. eauto.
    + intros (post & [= -> ->]). split; [apply Ascii.eqb_refl|eauto].
Qed.

Lemma contains_spec (needle hay : string) :
  PyStr.contains needle hay = true
  <-> exists pre post, hay = pre ++ needle ++ post.
Proof.
  induction hay as [|c hay IH]; simpl;
    rewrite orb_true_iff, startswith_spec.
  - split.
    + intros [(post & E)|H]; [|discriminate]. exists "", post. exact E.
    + intros (pre & post & E). left. destruct pre; [|discriminate].
      exists post. exact E.
  - rewrite IH. split.
    + intros [(post & E)|(pre & post & E)].
      * exists "", post. exact E.
      * exists (String c pre), post. simpl. now rewrite E.
    + intros (pre & post & E). destruct pre as [|d pre].
      * left. exists post. exact E.
      * right. simpl in E. injection E as <- ->. eauto.
Qed.

Lemma occurs_as_word_contains (pat text : string) :
  occurs_as_word pat text -> PyStr.contains pat text = true.
Proof.
  intros (pre & post & E & _). apply contains_spec. eauto.
Qed.

(** A pattern that ends in a non-word character is only found right
    in front of a word character. *)
Lemma occurs_before_word_char (pat text : string) (c : ascii) :
  last_char None pat = Some c ->
  PyStr.is_word c = false ->
  occurs_as_word pat text ->
  exists pre post d,
    text = pre ++ pat ++ String d post /\ PyStr.is_word d = true.
Proof.
  intros Hlast Hc (pre & post & E & _ & He).
  rewrite last_char_app in He.
  assert (Hl : last_char (last_char None pre) pat = Some c).
  { destruct pat; [discriminate|exact Hlast]. }
  rewrite Hl in He. unfold Regex.boundary in He. simpl in He.
  rewrite Hc in He. simpl in He.
  destruct post as [|d post]; [discriminate|].
  exists pre, post, d. split; [exact E|exact He].
Qed.

End WholeWord.

(** ** What [analyze_skills] reports *)

Section Detection.

Import PyDict SkillAnalyzer PyText.

Lemma detected_in_In (text : string) (set : list string) (s : string) :
  In s (detected_in text set)
  <-> In s set /\ Regex.search_word s text = true.
Proof.
  unfold detected_in.
  exact (filter_In (fun skill => Regex.search_word skill text) s set).
Qed.

Lemma all_skills_In (s : string) :
  In s all_skills
  <-> exists category set, In (category, set) skill_categories /\ In s set.
Proof.
  rewrite all_skills_concat, in_concat. unfold values. split.
  - intros (set & Hset & Hs). apply in_map_iff in Hset.
    destruct Hset as ([c set'] & <- & Hin). eauto.
  - intros (c & set & Hin & Hs). exists set. split; [|exact Hs].
    now apply (in_map snd) in Hin.
Qed.

Lemma detected_skills_In (text s : string) :
  In s (detected_skills text)
  <-> (exists category set,
          In (category, set) skill_categories /\ In s set)
      /\ Regex.search_word s text = true.
Proof. unfold detected_skills. now rewrite detected_in_In, all_skills_In. Qed.

Lemma detected_profile_In_iff (text category : string) (l : list string) :
  In (category, l) (detected_profile text)
  <-> exists set,
      In (category, set) skill_categories
      /\ l = detected_in text set /\ l <> [].
Proof.
  unfold detected_profile. rewrite in_flat_map. split.
  - intros ([c set] & Hin & H). simpl in H.
    destruct (detected_in text set) eqn:E; simpl in H; [easy|].
    destruct H as [[= <- <-]|[]]. exists set. rewrite E.
    repeat split; [exact Hin|discriminate].
  - intros (set & Hin & -> & Hne). exists (category, set).
    split; [exact Hin|]. simpl.
    destruct (detected_in text set); [congruence|now left].
Qed.

Lemma detected_keys (text : string) (tax : dict (list string)) (c : string) :
  In c (keys (flat_map
                (fun cs =>
                   match detected_in text (snd cs) with
                   | [] => []
                   | l => [(fst cs, l)]
                   end) tax)) ->
  In c (keys tax).
Proof.
  unfold keys. rewrite !in_map_iff.
  intros ([c' l] & <- & H). apply in_flat_map in H.
  destruct H as ([c0 set] & Hin & H). simpl in H.
  destruct (detected_in text set); simpl in H; [easy|].
  destruct H as [[= <- <-]|[]]. now exists (c0, set).
Qed.

(** Reading a category of the detected profile gives the detected
    skills of that category, the empty list when there is none. *)
Lemma detected_get (text category : string) (set : list string) :
  In (category, set) skill_categories ->
  get_default category [] (detected_profile text) = detected_in text set.
Proof.
  unfold detected_profile. generalize taxonomy_keys_NoDup.
  generalize skill_categories as tax.
  induction tax as [|[c0 set0] tax IH]; intros Hnd Hin; [easy|].
  inversion Hnd as [|? ? Hc0 Htax]; subst. simpl flat_map.
  destruct Hin as [[= -> ->]|Hin].
  - destruct (detected_in text set) as [|x l] eqn:E; simpl.
    + unfold get_default. rewrite get_None; [reflexivity|].
      intros H. apply detected_keys in H. exact (Hc0 H).
    + unfold get_default. simpl. now rewrite String.eqb_refl.
  - assert (Hne : category <> c0).
    { intros ->. apply Hc0. now apply (in_map fst) in Hin. }
    specialize (IH Htax Hin). unfold get_default in *.
    destruct (detected_in text set0); simpl; [exact IH|].
    apply String.eqb_neq in Hne. now rewrite Hne.
Qed.

Lemma map_values_get {V W} (f : V -> W) (k : string) (d : dict V) :
  get k (map_values f d) = option_map f (get k d).
Proof.
  induction d as [|[k' v] d IH]; simpl; [reflexivity|].
  destruct (String.eqb k k'); [reflexivity|exact IH].
Qed.

Lemma sorted_profile_get (category : string) (d : dict (list string)) :
  get_default category [] (sorted_profile d)
  = PyStr.sorted (get_default category [] d).
Proof.
  unfold get_default, sorted_profile. rewrite map_values_get.
  now destruct (get category d).
Qed.

(** A skill is listed under a category of a scanned profile exactly
    when it belongs to the category and occurs as a whole word. *)
Lemma reported_spec (text category skill : string) :
  (exists skills,
      In (category, skills) (sorted_profile (scan_text text))
      /\ In skill skills)
  <-> (exists set,
          get category skill_categories = Some set /\ In skill set)
      /\ occurs_as_word skill text.
Proof.
  rewrite scan_text_detected, <- search_word_spec. split.
  - intros (skills & Hin & Hs).
    apply sorted_profile_In in Hin. destruct Hin as (l0 & -> & Hin).
    apply detected_profile_In_iff in Hin.
    destruct Hin as (set & Hset & -> & _).
    apply (proj1 (sorted_In _ _)) in Hs. apply detected_in_In in Hs.
    split; [|tauto]. exists set. split; [|tauto].
    apply get_In; [apply taxonomy_keys_NoDup|exact Hset].
  - intros [(set & Hget & Hs) Hw]. apply get_Some_In in Hget.
    exists (PyStr.sorted (detected_in text set)). split.
    + unfold sorted_profile, map_values. apply in_map_iff.
      exists (category, detected_in text set). split; [reflexivity|].
      apply detected_profile_In_iff. exists set.
      repeat split; [exact Hget|].
      intros E. assert (H : In skill (detected_in text set))
        by (apply detected_in_In; tauto).
      rewrite E in H. destruct H.
    + apply sorted_In, detected_in_In. tauto.
Qed.

(** X1.  Without a job description and for an ASCII text,
    [analyze_skills] lists a skill under a category exactly when the
    skill belongs to that category of the taxonomy and occurs in the
    lowered text as a whole word (a word boundary in front of it and
    one behind it). *)
Theorem reported_iff_whole_word (resume_text category skill : string) :
  PyStr.isascii resume_text = true ->
  exists p,
    analyze_skills resume_text None = Profile p
    /\ ((exists skills, In (category, skills) p /\ In skill skills)
        <-> (exists set,
                get category skill_categories = Some set /\ In skill set)
            /\ occurs_as_word skill (PyStr.lower resume_text)).
Proof.
  intros _. eexists. split; [reflexivity|]. apply reported_spec.
Qed.

Lemma reported_iff_whole_word_witness :
  exists p,
    analyze_skills "Python, not pythonic" None = Profile p
    /\ ((exists skills,
            In ("programming_languages", skills) p /\ In "python" skills)
        <-> (exists set,
                get "programming_languages" skill_categories = Some set
                /\ In "python" set)
            /\ occurs_as_word "python"
                 (PyStr.lower "Python, not pythonic")).
Proof.
  apply (reported_iff_whole_word "Python, not pythonic"
           "programming_languages" "python").
  reflexivity.
Defined.

(** X2.  In an ASCII text, a skill whose last character is not a word
    character (as "c++" and "c#") is only reported when the text has it
    right in front of a letter, a digit or an underscore: followed by a
    space, a comma or the end of the text it is not found. *)
Theorem trailing_symbol_needs_word_char
        (resume_text category skill : string) (skills : list string)
        (p : dict (list string)) (c : ascii) :
  PyStr.isascii resume_text = true ->
  analyze_skills resume_text None = Profile p ->
  In (category, skills) p ->
  In skill skills ->
  last_char None skill = Some c ->
  PyStr.is_word c = false ->
  exists pre post d,
    PyStr.lower resume_text = (pre ++ skill ++ String d post)%string
    /\ PyStr.is_word d = true.
Proof.
  intros _ [= <-] Hin Hs Hlast Hc.
  assert (H : occurs_as_word skill (PyStr.lower resume_text))
    by (apply (reported_spec _ category skill); eauto).
  exact (occurs_before_word_char _ _ c Hlast Hc H).
Qed.

Lemma trailing_symbol_needs_word_char_witness :
  exists pre post d,
    PyStr.lower "Java and C++11" = (pre ++ "c++" ++ String d post)%string
    /\ PyStr.is_word d = true.
Proof.
  apply (trailing_symbol_needs_word_char
           "Java and C++11" "programming_languages" "c++" ["c++"; "java"]
           [("programming_languages", ["c++"; "java"])] "+"%char).
  - reflexivity.
  - vm_compute. reflexivity.
  - now left.
  - now left.
  - reflexivity.
  - reflexivity.
Defined.

(** "c++" followed by a separator is not reported. *)
Example cpp_before_comma :
  analyze_skills "C++, Java" None
  = Profile [("programming_languages", ["java"])].
Proof. vm_compute. reflexivity. Qed.

Lemma truthy_lower (s : string) :
  PyStr.truthy (PyStr.lower s) = PyStr.truthy s.
Proof. now destruct s. Qed.

(** X3.  The analysis ignores case: texts that are equal once lowered
    get the same result, with and without a job description. *)
Theorem analysis_ignores_case (r1 r2 j1 j2 : string) :
  PyStr.lower r1 = PyStr.lower r2 ->
  PyStr.lower j1 = PyStr.lower j2 ->
  analyze_skills r1 (Some j1) = analyze_skills r2 (Some j2)
  /\ analyze_skills r1 None = analyze_skills r2 None.
Proof.
  intros Hr Hj. unfold analyze_skills.
  assert (Ht : PyStr.truthy j1 = PyStr.truthy j2)
    by now rewrite <- (truthy_lower j1), <- (truthy_lower j2), Hj.
  now rewrite Hr, Hj, Ht.
Qed.

Lemma analysis_ignores_case_witness :
  analyze_skills "Python" (Some "DOCKER") = analyze_skills "PYTHON" (Some "docker")
  /\ analyze_skills "Python" None = analyze_skills "PYTHON" None.
Proof.
  apply (analysis_ignores_case "Python" "PYTHON" "DOCKER" "docker");
    reflexivity.
Defined.

End Detection.

(** ** Matched and missing skills *)

Section MatchedMissing.

Import PyDict SkillAnalyzer.

Variables resume_lower job_lower : string.

Let found := detected_profile resume_lower.
Let job := detected_profile job_lower.

Lemma job_entry_In (s : string) :
  In s (detected_skills job_lower) ->
  exists category set,
    In (category, set) skill_categories
    /\ In s set
    /\ In (category, detected_in job_lower set) job.
Proof.
  intros H. apply (proj1 (detected_skills_In _ _)) in H.
  destruct H as [(category & set & Hin & Hs) Hw].
  exists category, set. repeat split; [exact Hin|exact Hs|].
  apply (proj2 (detected_profile_In_iff _ _ _)). exists set.
  repeat split; [exact Hin|]. intros E.
  assert (Hd : In s (detected_in job_lower set))
    by (apply (proj2 (detected_in_In _ _ _)); tauto).
  rewrite E in Hd. destruct Hd.
Qed.

(** Matched: detected in both texts. *)
Lemma matched_spec (s : string) :
  In s (fst (fold_left (compare_category found) job ([], [])))
  <-> In s (detected_skills resume_lower)
      /\ In s (detected_skills job_lower).
Proof.
  rewrite compare_fold. cbn [fst app]. rewrite in_flat_map. split.
  - intros ([c l] & He & Hin). cbn [fst snd] in Hin.
    apply (proj1 (detected_profile_In_iff _ _ _)) in He.
    destruct He as (set & Hset & -> & _).
    apply (proj1 (inter_In _ _ _)) in Hin. rewrite !of_list_In in Hin.
    unfold found in Hin. rewrite (detected_get _ _ _ Hset) in Hin.
    rewrite !detected_in_In in Hin. rewrite !detected_skills_In.
    intuition eauto.
  - intros [Hr Hj]. destruct (job_entry_In s Hj) as (c & set & Hset & Hs & He).
    exists (c, detected_in job_lower set). split; [exact He|].
    cbn [fst snd]. apply (proj2 (inter_In _ _ _)). rewrite !of_list_In.
    unfold found. rewrite (detected_get _ _ _ Hset), !detected_in_In.
    apply (proj1 (detected_skills_In _ _)) in Hr.
    apply (proj1 (detected_skills_In _ _)) in Hj. tauto.
Qed.

(** Missing: detected in the job description and not in the resume. *)
Lemma missing_spec (s : string) :
  In s (snd (fold_left (compare_category found) job ([], [])))
  <-> In s (detected_skills job_lower)
      /\ ~ In s (detected_skills resume_lower).
Proof.
  rewrite compare_fold. cbn [snd app]. rewrite in_flat_map. split.
  - intros ([c l] & He & Hin). cbn [fst snd] in Hin.
    apply (proj1 (detected_profile_In_iff _ _ _)) in He.
    destruct He as (set & Hset & -> & _).
    apply (proj1 (diff_In _ _ _)) in Hin. rewrite !of_list_In in Hin.
    unfold found in Hin. rewrite (detected_get _ _ _ Hset) in Hin.
    rewrite !detected_in_In in Hin. rewrite !detected_skills_In.
    intuition eauto.
  - intros [Hj Hr]. destruct (job_entry_In s Hj) as (c & set & Hset & Hs & He).
    exists (c, detected_in job_lower set). split; [exact He|].
    cbn [fst snd]. apply (proj2 (diff_In _ _ _)). rewrite !of_list_In.
    unfold found. rewrite (detected_get _ _ _ Hset), !detected_in_In.
    rewrite !detected_skills_In in Hj, Hr. intuition eauto.
Qed.

Lemma NoDup_app_disjoint (l1 l2 : list string) :
  NoDup (l1 ++ l2) -> forall a, In a l1 -> ~ In a l2.
Proof.
  induction l1 as [|x l1 IH]; simpl; intros H a Ha; [easy|].
  inversion H as [|? ? Hx Hrest]; subst. destruct Ha as [->|Ha].
  - intros H2. apply Hx, in_or_app. now right.
  - now apply IH.
Qed.

(** Pieces taken without repetition from lists that share no element
    share no element either. *)
Lemma NoDup_flat_map_sub {X} (F G : X -> list string) (l : list X) :
  NoDup (flat_map G l) ->
  (forall x, NoDup (F x)) ->
  (forall x s, In s (F x) -> In s (G x)) ->
  NoDup (flat_map F l).
Proof.
  intros Hnd HF Hsub. induction l as [|x l IH]; simpl in *; [constructor|].
  apply NoDup_app.
  - apply HF.
  - apply IH. eapply NoDup_app_remove_l; exact Hnd.
  - intros s Hs Hin. apply (NoDup_app_disjoint _ _ Hnd s).
    + now apply Hsub.
    + apply in_flat_map in Hin. destruct Hin as (y & Hy & Hsy).
      apply in_flat_map. exists y. split; [exact Hy|now apply Hsub].
Qed.

Lemma job_values_NoDup : NoDup (flat_map snd job).
Proof.
  pose proof (detected_skills_NoDup job_lower) as H.
  rewrite <- detected_profile_values in H. unfold values in H.
  now rewrite <- flat_map_concat_map in H.
Qed.

Lemma matched_NoDup :
  NoDup (fst (fold_left (compare_category found) job ([], []))).
Proof.
  rewrite compare_fold. cbn [fst app].
  apply (NoDup_flat_map_sub _ snd); [apply job_values_NoDup| |].
  - intros e. unfold PySet.inter. apply NoDup_filter, of_list_NoDup.
  - intros e s Hs. apply (proj1 (inter_In _ _ _)) in Hs.
    destruct Hs as [_ Hs]. now apply (proj1 (of_list_In _ _)) in Hs.
Qed.

Lemma missing_NoDup :
  NoDup (snd (fold_left (compare_category found) job ([], []))).
Proof.
  rewrite compare_fold. cbn [snd app].
  apply (NoDup_flat_map_sub _ snd); [apply job_values_NoDup| |].
  - intros e. unfold PySet.diff. apply NoDup_filter, of_list_NoDup.
  - intros e s Hs. apply (proj1 (diff_In _ _ _)) in Hs.
    destruct Hs as [Hs _]. now apply (proj1 (of_list_In _ _)) in Hs.
Qed.

(** Every detected job skill is counted once, as matched or as
    missing. *)
Lemma matched_missing_count :
  (List.length (fst (fold_left (compare_category found) job ([], [])))
   + List.length (snd (fold_left (compare_category found) job ([], [])))
   = List.length (detected_skills job_lower))%nat.
Proof.
  rewrite <- length_app. apply Permutation_length, NoDup_Permutation.
  - apply NoDup_app; [apply matched_NoDup|apply missing_NoDup|].
    intros s Hm Hn. apply (proj1 (matched_spec s)) in Hm.
    apply (proj1 (missing_spec s)) in Hn. tauto.
  - apply detected_skills_NoDup.
  - intros s. rewrite in_app_iff, matched_spec, missing_spec.
    generalize (in_dec string_dec s (detected_skills resume_lower)).
    generalize (In s (detected_skills resume_lower)).
    generalize (In s (detected_skills job_lower)).
    intros J R [HR|HR]; tauto.
Qed.

End MatchedMissing.

Section ComparisonFacts.

Import PyDict SkillAnalyzer.

Ltac comparison_of H c :=
  match type of H with
  | Comparison ?x = Comparison c =>
      let E := fresh "E" in
      assert (E : c = x) by congruence; clear H; subst c
  end.

(** X4.  In the comparison, the matched skills are the taxonomy skills
    detected in both texts, and the missing skills are those detected
    in the job description and not in the resume; so no skill is both
    matched and missing. *)
Theorem matched_and_missing_characterised
        (resume_text jd : string) (c : comparison) (skill : string) :
  analyze_skills resume_text (Some jd) = Comparison c ->
  (In skill (matched_skills c)
   <-> In skill (detected_skills (PyStr.lower resume_text))
       /\ In skill (detected_skills (PyStr.lower jd)))
  /\ (In skill (missing_skills c)
      <-> In skill (detected_skills (PyStr.lower jd))
          /\ ~ In skill (detected_skills (PyStr.lower resume_text)))
  /\ ~ (In skill (matched_skills c) /\ In skill (missing_skills c)).
Proof.
  unfold analyze_skills. destruct (PyStr.truthy jd); [|discriminate].
  intros H. comparison_of H c. cbn [matched_skills missing_skills].
  rewrite !sorted_In, !scan_text_detected, matched_spec, missing_spec.
  generalize (In skill (detected_skills (PyStr.lower resume_text))).
  generalize (In skill (detected_skills (PyStr.lower jd))).
  intros J R. tauto.
Qed.

Lemma matched_and_missing_characterised_witness :
  exists c,
    analyze_skills "Python and React" (Some "python, docker, aws")
    = Comparison c
    /\ ~ (In "python" (matched_skills c) /\ In "python" (missing_skills c)).
Proof.
  eexists. split; [vm_compute; reflexivity|].
  apply (matched_and_missing_characterised "Python and React"
           "python, docker, aws").
  vm_compute. reflexivity.
Defined.

(** X5.  In the comparison, [matched_skills] and [missing_skills] are
    in increasing order and without repetition, and their lengths add
    up to the number of taxonomy skills detected in the job
    description. *)
Theorem matched_and_missing_lists
        (resume_text jd : string) (c : comparison) :
  analyze_skills resume_text (Some jd) = Comparison c ->
  Sorted PyStr.le (matched_skills c)
  /\ Sorted PyStr.le (missing_skills c)
  /\ NoDup (matched_skills c)
  /\ NoDup (missing_skills c)
  /\ (List.length (matched_skills c) + List.length (missing_skills c)
      = List.length (detected_skills (PyStr.lower jd)))%nat.
Proof.
  unfold analyze_skills. destruct (PyStr.truthy jd); [|discriminate].
  intros H. comparison_of H c. cbn [matched_skills missing_skills].
  rewrite !sorted_length, !scan_text_detected.
  repeat split; try apply sorted_ordered; try apply sorted_NoDup.
  - apply matched_NoDup.
  - apply missing_NoDup.
  - apply matched_missing_count.
Qed.

Lemma matched_and_missing_lists_witness :
  exists c,
    analyze_skills "Python and React" (Some "python, docker, aws")
    = Comparison c
    /\ (List.length (matched_skills c) + List.length (missing_skills c)
        = List.length (detected_skills (PyStr.lower "python, docker, aws")))%nat.
Proof.
  eexists. split; [vm_compute; reflexivity|].
  apply (matched_and_missing_lists "Python and React"
           "python, docker, aws").
  vm_compute. reflexivity.
Defined.

End ComparisonFacts.

(** ** [get_skill_gap] *)

Section SkillGap.

Import PyDict SkillAnalyzer.

Lemma set_new {V} (k : string) (v : V) (d : dict V) :
  ~ In k (keys d) -> set k v d = d ++ [(k, v)].
Proof.
  induction d as [|[k' v'] d IH]; simpl; intros H; [reflexivity|].
  destruct (String.eqb_spec k k') as [->|_]; [tauto|].
  rewrite IH by tauto. reflexivity.
Qed.

(** What one category contributes to the gap. *)
Let entry (resume job : analysis) (category : string)
  : dict (list string) :=
  match PySet.diff (PySet.of_list (analysis_get category job))
                   (PySet.of_list (analysis_get category resume)) with
  | [] => []
  | (_ :: _) as missing => [(category, PyStr.sorted missing)]
  end.

Lemma gap_fold (resume job : analysis) (cats : list string)
      (d : dict (list string)) :
  NoDup cats ->
  (forall c, In c cats -> ~ In c (keys d)) ->
  fold_left (gap_step resume job) cats d
  = d ++ flat_map (entry resume job) cats.
Proof.
  revert d. induction cats as [|c cats IH]; intros d Hnd Hfresh; simpl.
  - now rewrite app_nil_r.
  - inversion Hnd as [|? ? Hc Hcats]; subst.
    assert (Hstep : gap_step resume job d c = d ++ entry resume job c).
    { unfold gap_step, entry.
      destruct (PySet.diff _ _); [now rewrite app_nil_r|].
      apply set_new, Hfresh. now left. }
    rewrite Hstep, IH; [now rewrite <- app_assoc|exact Hcats|].
    intros c' Hc' Hin. unfold keys in Hin.
    rewrite map_app, in_app_iff in Hin. destruct Hin as [Hin|Hin].
    + apply (Hfresh c'); [now right|exact Hin].
    + unfold entry in Hin. destruct (PySet.diff _ _); simpl in Hin; [easy|].
      destruct Hin as [<-|[]]. now apply Hc.
Qed.

Lemma skill_gaps_of_entries (resume job : analysis) :
  skill_gaps_of resume job
  = flat_map (entry resume job) (keys skill_categories).
Proof.
  unfold skill_gaps_of.
  now rewrite gap_fold by (auto using taxonomy_keys_NoDup).
Qed.

Lemma profile_get (text category : string) (set : list string) :
  In (category, set) skill_categories ->
  analysis_get category (analyze_skills text None)
  = PyStr.sorted (detected_in (PyStr.lower text) set).
Proof.
  intros Hset.
  change (analyze_skills text None)
    with (Profile (sorted_profile (scan_text (PyStr.lower text)))).
  cbn [analysis_get].
  now rewrite sorted_profile_get, scan_text_detected, (detected_get _ _ _ Hset).
Qed.

Lemma gap_entry_In (resume_text job_description category : string)
      (skills : list string) :
  In (category, skills) (get_skill_gap resume_text job_description)
  <-> exists set,
      In (category, set) skill_categories
      /\ skills <> []
      /\ skills
         = PyStr.sorted
             (PySet.diff
                (PySet.of_list
                   (PyStr.sorted
                      (detected_in (PyStr.lower job_description) set)))
                (PySet.of_list
                   (PyStr.sorted
                      (detected_in (PyStr.lower resume_text) set)))).
Proof.
  unfold get_skill_gap. rewrite skill_gaps_of_entries, in_flat_map. split.
  - intros (c & Hc & Hin). unfold keys in Hc. apply in_map_iff in Hc.
    destruct Hc as ([c' set] & <- & Hset). cbn [fst] in Hin.
    unfold entry in Hin.
    rewrite !(profile_get _ _ _ Hset) in Hin.
    destruct (PySet.diff _ _) as [|x m] eqn:E; [easy|].
    destruct Hin as [Hin|[]]. apply pair_equal_spec in Hin.
    destruct Hin as [<- <-]. exists set.
    split; [exact Hset|]. split; [|now rewrite E].
    intros E'. apply (f_equal (@List.length string)) in E'.
    rewrite sorted_length in E'. discriminate.
  - intros (set & Hset & Hne & ->). exists category. split.
    + unfold keys. now apply (in_map fst) in Hset.
    + unfold entry. rewrite !(profile_get _ _ _ Hset).
      destruct (PySet.diff _ _) as [|x m] eqn:E; [now elim Hne|now left].
Qed.

Lemma gap_skill_In (resume_text job_description category skill : string) :
  (exists skills,
      In (category, skills) (get_skill_gap resume_text job_description)
      /\ In skill skills)
  <-> exists set,
      In (category, set) skill_categories
      /\ In skill set
      /\ Regex.search_word skill (PyStr.lower job_description) = true
      /\ Regex.search_word skill (PyStr.lower resume_text) <> true.
Proof.
  split.
  - intros (skills & Hin & Hs). apply (proj1 (gap_entry_In _ _ _ _)) in Hin.
    destruct Hin as (set & Hset & _ & ->). exists set.
    rewrite sorted_In, diff_In, !of_list_In, !sorted_In,
      !detected_in_In in Hs. tauto.
  - intros (set & Hset & Hs & Hj & Hr).
    eexists. split.
    + apply (proj2 (gap_entry_In _ _ _ _)). exists set. split; [exact Hset|].
      split; [|reflexivity]. intros E.
      assert (H : In skill
                    (PyStr.sorted
                       (PySet.diff
                          (PySet.of_list
                             (PyStr.sorted
                                (detected_in (PyStr.lower job_description)
                                   set)))
                          (PySet.of_list
                             (PyStr.sorted
                                (detected_in (PyStr.lower resume_text)
                                   set)))))).
      { rewrite sorted_In, diff_In, !of_list_In, !sorted_In,
          !detected_in_In. tauto. }
      rewrite E in H. destruct H.
    + rewrite sorted_In, diff_In, !of_list_In, !sorted_In,
        !detected_in_In. tauto.
Qed.

(** X6.  For ASCII texts, [get_skill_gap] lists a skill under a
    category exactly when the skill belongs to that category of the
    taxonomy, occurs as a whole word in the lowered job description and
    does not in the lowered resume; a category of the result is never
    empty, and its list is in increasing order without repetition. *)
Theorem skill_gap_characterised
        (resume_text job_description category skill : string) :
  PyStr.isascii resume_text = true ->
  PyStr.isascii job_description = true ->
  ((exists skills,
       In (category, skills) (get_skill_gap resume_text job_description)
       /\ In skill skills)
   <-> (exists set,
           get category skill_categories = Some set /\ In skill set)
       /\ occurs_as_word skill (PyStr.lower job_description)
       /\ ~ occurs_as_word skill (PyStr.lower resume_text))
  /\ (forall skills,
        In (category, skills) (get_skill_gap resume_text job_description) ->
        skills <> [] /\ Sorted PyStr.le skills /\ NoDup skills).
Proof.
  intros _ _. split.
  - rewrite gap_skill_In, <- !search_word_spec. split.
    + intros (set & Hset & Hs & Hj & Hr). split; [|tauto].
      exists set. split; [|exact Hs].
      apply get_In; [apply taxonomy_keys_NoDup|exact Hset].
    + intros [(set & Hget & Hs) [Hj Hr]]. apply get_Some_In in Hget.
      exists set. tauto.
  - intros skills Hin. apply (proj1 (gap_entry_In _ _ _ _)) in Hin.
    destruct Hin as (set & _ & Hne & ->).
    split; [exact Hne|]. split; [apply sorted_ordered|].
    apply sorted_NoDup. unfold PySet.diff. apply NoDup_filter, of_list_NoDup.
Qed.

Lemma skill_gap_characterised_witness :
  ((exists skills,
       In ("cloud_devops", skills)
          (get_skill_gap "Python and React" "python, docker, aws")
       /\ In "docker" skills)
   <-> (exists set,
           get "cloud_devops" skill_categories = Some set /\ In "docker" set)
       /\ occurs_as_word "docker" (PyStr.lower "python, docker, aws")
       /\ ~ occurs_as_word "docker" (PyStr.lower "Python and React"))
  /\ (forall skills,
        In ("cloud_devops", skills)
           (get_skill_gap "Python and React" "python, docker, aws") ->
        skills <> [] /\ Sorted PyStr.le skills /\ NoDup skills).
Proof.
  apply (skill_gap_characterised "Python and React" "python, docker, aws"
           "cloud_devops" "docker"); reflexivity.
Defined.

(** X7.  The gap is empty exactly when every taxonomy skill detected in
    the job description is also detected in the resume. *)
Theorem skill_gap_empty_iff (resume_text job_description : string) :
  get_skill_gap resume_text job_description = []
  <-> forall skill,
      In skill (detected_skills (PyStr.lower job_description)) ->
      In skill (detected_skills (PyStr.lower resume_text)).
Proof.
  split.
  - intros E skill Hj. apply (proj1 (detected_skills_In _ _)) in Hj.
    destruct Hj as [(category & set & Hset & Hs) Hj].
    apply (proj2 (detected_skills_In _ _)).
    split; [exists category, set; split; assumption|].
    destruct (Regex.search_word skill (PyStr.lower resume_text)) eqn:Hr;
      [reflexivity|exfalso].
    assert (H : exists skills,
               In (category, skills)
                  (get_skill_gap resume_text job_description)
               /\ In skill skills).
    { apply (proj2 (gap_skill_In _ _ _ _)). exists set.
      split; [exact Hset|]. split; [exact Hs|]. split; [exact Hj|].
      congruence. }
    destruct H as (skills & Hin & _). rewrite E in Hin. destruct Hin.
  - intros H.
    destruct (get_skill_gap resume_text job_description)
      as [|[category skills] gap] eqn:E; [reflexivity|exfalso].
    assert (Hin : In (category, skills)
                     (get_skill_gap resume_text job_description))
      by (rewrite E; now left).
    pose proof Hin as Hent. apply (proj1 (gap_entry_In _ _ _ _)) in Hent.
    destruct Hent as (set & _ & Hne & _).
    destruct skills as [|skill skills]; [congruence|].
    assert (Hs : exists l,
               In (category, l) (get_skill_gap resume_text job_description)
               /\ In skill l).
    { exists (skill :: skills). split; [exact Hin|left; reflexivity]. }
    apply (proj1 (gap_skill_In _ _ _ _)) in Hs.
    destruct Hs as (set' & Hset & Hs & Hj & Hr).
    apply Hr.
    assert (Hd : In skill (detected_skills (PyStr.lower resume_text))).
    { apply H. apply (proj2 (detected_skills_In _ _)).
      split; [exists category, set'; split; assumption|exact Hj]. }
    apply (proj1 (detected_skills_In _ _)) in Hd. apply Hd.
Qed.

(** X8.  The skills of the gap are the [missing_skills] of the
    comparison of the same two texts. *)
Theorem skill_gap_is_missing_skills
        (resume_text jd : string) (c : comparison) (skill : string) :
  analyze_skills resume_text (Some jd) = Comparison c ->
  In skill (List.concat (values (get_skill_gap resume_text jd)))
  <-> In skill (missing_skills c).
Proof.
  unfold analyze_skills. destruct (PyStr.truthy jd); [|discriminate].
  intros H.
  match type of H with
  | Comparison ?x = Comparison c =>
      assert (E : c = x) by congruence; clear H; subst c
  end.
  cbn [missing_skills].
  rewrite sorted_In, !scan_text_detected, missing_spec, !detected_skills_In.
  rewrite in_concat. unfold values. split.
  - intros (l & Hl & Hs). apply in_map_iff in Hl.
    destruct Hl as ([category l'] & <- & Hin). cbn [snd] in Hs.
    assert (Hg : exists skills,
               In (category, skills) (get_skill_gap resume_text jd)
               /\ In skill skills).
    { exists l'. split; assumption. }
    apply (proj1 (gap_skill_In _ _ _ _)) in Hg.
    destruct Hg as (set & Hset & Hin' & Hj & Hr).
    split; [split; [exists category, set; split; assumption|exact Hj]|].
    intros [_ Hw]. exact (Hr Hw).
  - intros [[(category & set & Hset & Hs) Hj] Hr].
    assert (Hg : exists skills,
               In (category, skills) (get_skill_gap resume_text jd)
               /\ In skill skills).
    { apply (proj2 (gap_skill_In _ _ _ _)). exists set.
      split; [exact Hset|]. split; [exact Hs|]. split; [exact Hj|].
      intros Hw. apply Hr. split; [|exact Hw].
      exists category, set. split; assumption. }
    destruct Hg as (skills & Hin & Hsk). exists skills. split; [|exact Hsk].
    apply in_map_iff. exists (category, skills).
    split; [reflexivity|exact Hin].
Qed.

Lemma skill_gap_is_missing_skills_witness :
  exists c,
    analyze_skills "Python and React" (Some "python, docker, aws")
    = Comparison c
    /\ (In "docker"
           (List.concat
              (values (get_skill_gap "Python and React"
                         "python, docker, aws")))
        <-> In "docker" (missing_skills c)).
Proof.
  eexists. split; [vm_compute; reflexivity|].
  apply (skill_gap_is_missing_skills "Python and React"
           "python, docker, aws").
  vm_compute. reflexivity.
Defined.

End SkillGap.

(** ** [get_skill_match_percentage] *)

Section MatchPercentageFacts.

Import PyDict SkillAnalyzer PyText MatchPercentage.

(** What one entry of the job profile adds to the matched count. *)
Let contribution (resume_skills : dict (list string))
    (entry : string * list string) : nat :=
  if mem (fst entry) resume_skills then
    List.length
      (PySet.inter
         (PySet.of_list (get_default (fst entry) [] resume_skills))
         (PySet.of_list (snd entry)))
  else 0%nat.

Lemma totals_fold (resume_skills job_skills : dict (list string))
      (acc : nat * nat) :
  fold_left (percentage_step resume_skills) job_skills acc
  = ((fst acc
      + list_sum (map (fun e => List.length (snd e)) job_skills))%nat,
     (snd acc
      + list_sum (map (contribution resume_skills) job_skills))%nat).
Proof.
  revert acc. induction job_skills as [|e job IH]; intros [t m]; simpl.
  - now rewrite !Nat.add_0_r.
  - rewrite IH. unfold percentage_step, contribution. simpl.
    destruct (mem (fst e) resume_skills); simpl; f_equal; lia.
Qed.

Lemma contribution_le (resume_skills : dict (list string))
      (e : string * list string) :
  (contribution resume_skills e <= List.length (snd e))%nat.
Proof.
  unfold contribution. destruct (mem (fst e) resume_skills); [|lia].
  pose proof (inter_length
                (PySet.of_list (get_default (fst e) [] resume_skills))
                (PySet.of_list (snd e)) (of_list_NoDup _)).
  pose proof (of_list_length (snd e)). lia.
Qed.

Lemma totals_le (resume_skills job_skills : dict (list string)) :
  (snd (totals resume_skills job_skills)
   <= fst (totals resume_skills job_skills))%nat.
Proof.
  unfold totals. rewrite totals_fold. simpl.
  induction job_skills as [|e job IH]; simpl; [lia|].
  pose proof (contribution_le resume_skills e). lia.
Qed.

Lemma round_half_even_bounds (x : Q) (lo hi : Z) :
  inject_Z lo <= x <= inject_Z hi ->
  (lo <= round_half_even x <= hi)%Z.
Proof.
  intros [Hlo Hhi].
  assert (Hf1 : (lo <= Qfloor x)%Z).
  { rewrite <- (Qfloor_Z lo). now apply Qfloor_resp_le. }
  assert (Hf2 : (Qfloor x <= hi)%Z).
  { rewrite <- (Qfloor_Z hi). now apply Qfloor_resp_le. }
  assert (Hup : (Qfloor x = hi)%Z -> x - inject_Z (Qfloor x) < 1 # 2).
  { intros E. rewrite E. lra. }
  unfold round_half_even.
  destruct (Qcompare_spec (x - inject_Z (Qfloor x)) (1 # 2)) as [E|E|E].
  - assert ((Qfloor x <> hi)%Z) by (intros Hh; apply Hup in Hh; lra).
    destruct (Z.even (Qfloor x)); lia.
  - lia.
  - assert ((Qfloor x <> hi)%Z) by (intros Hh; apply Hup in Hh; lra).
    lia.
Qed.

Lemma round2_bounds (x : Q) : 0 <= x <= 100 -> 0 <= round2 x <= 100.
Proof.
  intros H. unfold round2.
  assert (Hb : (0 <= round_half_even (x * 100) <= 10000)%Z).
  { apply round_half_even_bounds. unfold inject_Z. lra. }
  destruct Hb as [H0 H1]. rewrite Zle_Qle in H0, H1.
  change (inject_Z 10000) with 10000 in H1.
  change (inject_Z 0) with 0 in H0.
  set (z := inject_Z _) in *. clearbody z. split.
  - apply Qle_shift_div_l; lra.
  - apply Qle_shift_div_r; lra.
Qed.

(** X9.  Whatever the two profiles, [get_skill_match_percentage] is
    between 0 and 100, and it is 0 when the job profile lists no
    skill. *)
Theorem match_percentage_within_bounds
        (resume_skills job_skills : dict (list string)) :
  0 <= get_skill_match_percentage resume_skills job_skills <= 100
  /\ (List.concat (values job_skills) = [] ->
      get_skill_match_percentage resume_skills job_skills = 0).
Proof.
  unfold get_skill_match_percentage.
  pose proof (totals_le resume_skills job_skills) as Hle.
  assert (Hfst : fst (totals resume_skills job_skills)
                 = List.length (List.concat (values job_skills))).
  { unfold totals. rewrite totals_fold. simpl. unfold values.
    rewrite length_concat, map_map. reflexivity. }
  destruct (totals resume_skills job_skills) as [t m]. simpl in *.
  split.
  - destruct (Nat.eqb_spec t 0) as [_|Ht]; [lra|].
    apply round2_bounds. apply percentage_bounds; lia.
  - intros E. rewrite E in Hfst. simpl in Hfst. now subst t.
Qed.

Lemma mem_ext (x : string) (a b : list string) :
  (forall y, In y a <-> In y b) -> PySet.mem x a = PySet.mem x b.
Proof.
  intros H. destruct (PySet.mem x a) eqn:Ea, (PySet.mem x b) eqn:Eb;
    try reflexivity.
  - apply mem_In, H, mem_In in Ea. congruence.
  - apply mem_In, H, mem_In in Eb. congruence.
Qed.

Lemma filter_perm {A} (f : A -> bool) (l l' : list A) :
  Permutation l l' -> Permutation (filter f l) (filter f l').
Proof.
  induction 1 as [|x l l' _ IH|x y l|l l' l'' _ IH1 _ IH2]; simpl.
  - constructor.
  - destruct (f x); [now constructor|exact IH].
  - destruct (f x), (f y); try reflexivity. apply perm_swap.
  - now transitivity (filter f l').
Qed.

(** Sorting the two lists does not change how many skills they
    share. *)
Lemma inter_sorted_length (a b : list string) :
  NoDup a -> NoDup b ->
  List.length
    (PySet.inter (PySet.of_list (PyStr.sorted a))
                 (PySet.of_list (PyStr.sorted b)))
  = List.length (PySet.inter (PySet.of_list a) (PySet.of_list b)).
Proof.
  intros Ha Hb.
  rewrite !of_list_fixed by auto using sorted_NoDup.
  unfold PySet.inter.
  rewrite (filter_ext (fun x => PySet.mem x (PyStr.sorted b))
                      (fun x => PySet.mem x b))
    by (intros x; apply mem_ext; intros y; apply sorted_In).
  apply Permutation_length, filter_perm, sorted_perm.
Qed.

Lemma mem_map_values {V W} (f : V -> W) (k : string) (d : dict V) :
  mem k (map_values f d) = mem k d.
Proof. unfold mem. rewrite map_values_get. now destruct (get k d). Qed.

Lemma detected_in_NoDup (text category : string) (set : list string) :
  In (category, set) skill_categories -> NoDup (detected_in text set).
Proof.
  intros H. unfold detected_in. apply NoDup_filter.
  now apply (taxonomy_set_NoDup category).
Qed.

(** The counts made on the sorted profiles of a comparison are the
    counts [analyze_skills] made itself. *)
Lemma totals_of_comparison (resume_lower job_lower : string) :
  totals (sorted_profile (detected_profile resume_lower))
         (sorted_profile (detected_profile job_lower))
  = (List.length (detected_skills job_lower),
     List.length
       (fst (fold_left
               (compare_category (detected_profile resume_lower))
               (detected_profile job_lower) ([], [])))).
Proof.
  unfold totals. rewrite totals_fold, compare_fold. cbn [fst snd app].
  rewrite !Nat.add_0_l. f_equal.
  - rewrite <- detected_profile_values. unfold values.
    rewrite length_concat, !map_map. f_equal.
    unfold sorted_profile, map_values. rewrite map_map.
    apply map_ext. intros e. apply sorted_length.
  - rewrite length_flat_map. f_equal.
    unfold sorted_profile at 2. unfold map_values. rewrite map_map.
    apply map_ext_in. intros [c l] Hin. unfold contribution. cbn [fst snd].
    apply (proj1 (detected_profile_In_iff _ _ _)) in Hin.
    destruct Hin as (set & Hset & -> & _).
    unfold sorted_profile at 1 2. rewrite mem_map_values.
    fold (sorted_profile (detected_profile resume_lower)).
    rewrite sorted_profile_get, (detected_get _ _ _ Hset).
    assert (Hmem : mem c (detected_profile resume_lower) = false ->
                   detected_in resume_lower set = []).
    { unfold mem. intros Hm. rewrite <- (detected_get _ _ _ Hset).
      unfold get_default.
      now destruct (get c (detected_profile resume_lower)). }
    destruct (mem c (detected_profile resume_lower)).
    + apply inter_sorted_length; now apply (detected_in_NoDup _ c).
    + now rewrite Hmem.
Qed.

(** X10.  Applied to the [resume_skills] and [job_skills] of a
    comparison, [get_skill_match_percentage] gives the comparison's
    [skill_match_percentage] rounded to two decimals. *)
Theorem match_percentage_of_comparison
        (resume_text jd : string) (c : comparison) :
  analyze_skills resume_text (Some jd) = Comparison c ->
  get_skill_match_percentage (resume_skills c) (job_skills c)
  == round2 (skill_match_percentage c).
Proof.
  unfold analyze_skills. destruct (PyStr.truthy jd); [|discriminate].
  intros H.
  match type of H with
  | Comparison ?x = Comparison c =>
      assert (E : c = x) by congruence; clear H; subst c
  end.
  cbn [resume_skills job_skills skill_match_percentage].
  unfold get_skill_match_percentage.
  rewrite job_skill_total_detected, !scan_text_detected, totals_of_comparison.
  cbn [fst snd].
  pose proof (matched_missing_count (PyStr.lower resume_text)
                (PyStr.lower jd)) as Hcount.
  set (m := List.length (fst _)) in *.
  set (n := List.length (detected_skills _)) in *.
  destruct (Nat.eqb_spec n 0) as [Hn|Hn].
  - assert (m = 0)%nat as -> by lia. rewrite Hn. reflexivity.
  - replace (Nat.max n 1) with n by lia. reflexivity.
Qed.

Lemma match_percentage_of_comparison_witness :
  exists c,
    analyze_skills "Python and React" (Some "python, docker, aws")
    = Comparison c
    /\ get_skill_match_percentage (resume_skills c) (job_skills c)
       == round2 (skill_match_percentage c).
Proof.
  eexists. split; [vm_compute; reflexivity|].
  apply (match_percentage_of_comparison "Python and React"
           "python, docker, aws").
  vm_compute. reflexivity.
Defined.

End MatchPercentageFacts.

(** ** More on [get_skill_suggestions] *)

Section SuggestionFacts.

Import PyDict SkillAnalyzer.

Lemma firstn_add {A} (n k : nat) (l : list A) :
  firstn (n + k) l = firstn n l ++ firstn k (skipn n l).
Proof.
  revert l. induction n as [|n IH]; intros l; simpl; [reflexivity|].
  destruct l as [|x l]; simpl; [now rewrite firstn_nil|].
  now rewrite IH.
Qed.

Lemma priority_run (missing : dict (list string)) :
  fold_left (add_priority_tagged missing) priority_categories []
  = spec_priority_part missing.
Proof. now rewrite add_priority_fold. Qed.

(** With a negative limit the second loop is skipped and the slice
    drops the end of the priority suggestions. *)
Lemma tagged_negative (missing : dict (list string)) (limit : Z) :
  (limit < 0)%Z ->
  get_skill_suggestions_tagged missing limit
  = firstn (List.length (spec_priority_part missing) - Z.to_nat (- limit))
           (spec_priority_part missing).
Proof.
  intros H. unfold get_skill_suggestions_tagged. rewrite priority_run.
  destruct (Z.ltb_spec
              (Z.of_nat (List.length (spec_priority_part missing))) limit)
    as [Hlt|_]; [lia|].
  unfold slice_to. destruct (Z.leb_spec 0 limit) as [Hle|_]; [lia|].
  reflexivity.
Qed.

(** X11.  With a negative limit [get_skill_suggestions] returns the
    suggestions of the priority categories without the last [-limit]
    of them, and never a suggestion of another category. *)
Theorem suggestions_for_negative_limit
        (missing : dict (list string)) (limit : Z) :
  (limit < 0)%Z ->
  get_skill_suggestions missing limit
  = map snd
        (firstn (List.length (spec_priority_part missing)
                 - Z.to_nat (- limit))
                (spec_priority_part missing))
  /\ Forall (fun t => is_priority (fst t) = true)
            (get_skill_suggestions_tagged missing limit).
Proof.
  intros H. rewrite <- tagged_erase, tagged_negative by exact H.
  split; [reflexivity|]. apply Forall_firstn_of, priority_part_tags.
Qed.

Lemma suggestions_for_negative_limit_witness :
  get_skill_suggestions
    [("soft_skills", ["leadership"]);
     ("cloud_devops", ["aws"; "gcp"; "chef"])] (-1)
  = ["Consider learning aws to improve your cloud devops skills"].
Proof.
  assert (H : (-1 < 0)%Z) by lia.
  exact (proj1 (suggestions_for_negative_limit
                  [("soft_skills", ["leadership"]);
                   ("cloud_devops", ["aws"; "gcp"; "chef"])] (-1) H)).
Defined.

(** X12.  For limits that are not negative, a larger limit only adds
    suggestions at the end; and a limit that is at least the number of
    all suggestions (two per priority category, one per other category)
    returns them all. *)
Theorem suggestions_grow_with_limit
        (missing : dict (list string)) (limit limit' : Z) :
  NoDup (keys missing) ->
  (0 <= limit <= limit')%Z ->
  (exists more,
      get_skill_suggestions missing limit'
      = get_skill_suggestions missing limit ++ more)
  /\ ((Z.of_nat
         (List.length (spec_priority_part missing ++ spec_other_part missing))
       <= limit)%Z ->
      get_skill_suggestions missing limit
      = map snd (spec_priority_part missing ++ spec_other_part missing)).
Proof.
  intros Hnd [H0 Hle].
  rewrite <- !tagged_erase.
  rewrite <- (Z2Nat.id limit), <- (Z2Nat.id limit') by lia.
  rewrite !tagged_spec by exact Hnd. unfold spec_suggestions.
  split.
  - replace (Z.to_nat limit')
      with (Z.to_nat limit + (Z.to_nat limit' - Z.to_nat limit))%nat by lia.
    rewrite firstn_add, map_app. eauto.
  - intros Hall. rewrite firstn_all2; [reflexivity|lia].
Qed.

Lemma suggestions_grow_with_limit_witness :
  exists more,
    get_skill_suggestions
      [("soft_skills", ["leadership"]);
       ("cloud_devops", ["aws"; "gcp"; "chef"])] 3
    = get_skill_suggestions
        [("soft_skills", ["leadership"]);
         ("cloud_devops", ["aws"; "gcp"; "chef"])] 1 ++ more.
Proof.
  assert (Hnd : NoDup (keys [("soft_skills", ["leadership"]);
                             ("cloud_devops", ["aws"; "gcp"; "chef"])]))
    by (apply NoDup_by_nodup; vm_compute; reflexivity).
  assert (Hle : (0 <= 1 <= 3)%Z) by lia.
  exact (proj1 (suggestions_grow_with_limit _ 1 3 Hnd Hle)).
Defined.

End SuggestionFacts.

(** ** Arguments that are not strings *)

Section IllTyped.

Import PyExn PyDict SkillAnalyzer Dynamic.

Lemma analyze_empty_text :
  SkillAnalyzer.analyze_skills "" None = empty_mapping.
Proof. vm_compute. reflexivity. Qed.

Lemma analyze_not_a_string (v : pyval) :
  (forall s, v <> PyStr s) ->
  Dynamic.analyze_skills v PyNone = Returned empty_mapping.
Proof.
  intros H. destruct v; try reflexivity. now elim (H s).
Qed.

Lemma analyze_a_string (s : string) :
  Dynamic.analyze_skills (PyStr s) PyNone
  = Returned (SkillAnalyzer.analyze_skills s None).
Proof. reflexivity. Qed.

(** X13.  [get_skill_gap] treats an argument that is not a string as
    a text without skills; its own handler is not involved, the error
    having been absorbed by [analyze_skills].  So a resume that is not
    a string has every skill detected in the job description reported
    as missing (the result is empty only when the job description has
    no skill), and a job description that is not a string gives the
    empty mapping. *)
Theorem skill_gap_of_non_strings (v : pyval) (text : string) :
  (forall s, v <> PyStr s) ->
  get_skill_gap_body v (PyStr text)
  = Returned (SkillAnalyzer.get_skill_gap "" text)
  /\ Dynamic.get_skill_gap v (PyStr text)
     = Returned (SkillAnalyzer.get_skill_gap "" text)
  /\ Dynamic.get_skill_gap (PyStr text) v = Returned [].
Proof.
  intros H.
  assert (Hbody : get_skill_gap_body v (PyStr text)
                  = Returned (SkillAnalyzer.get_skill_gap "" text)).
  { unfold get_skill_gap_body.
    rewrite (analyze_not_a_string v H), analyze_a_string.
    unfold SkillAnalyzer.get_skill_gap. rewrite analyze_empty_text.
    reflexivity. }
  split; [exact Hbody|]. split.
  - unfold Dynamic.get_skill_gap. now rewrite Hbody.
  - unfold Dynamic.get_skill_gap, get_skill_gap_body.
    rewrite (analyze_not_a_string v H), analyze_a_string.
    cbn [bind try_except_Exception]. unfold skill_gaps_of.
    now rewrite gap_of_empty_job.
Qed.

Lemma skill_gap_of_non_strings_witness :
  Dynamic.get_skill_gap PyNone (PyStr "Python and Docker")
  = Returned [("programming_languages", ["python"]);
              ("cloud_devops", ["docker"])].
Proof.
  assert (H : forall s, PyNone <> PyStr s) by (intros s; discriminate).
  rewrite (proj1 (proj2 (skill_gap_of_non_strings PyNone
                           "Python and Docker" H))).
  vm_compute. reflexivity.
Defined.

End IllTyped.

(** ** [allowed_file] *)

Section AllowedFile.

Import PyExn PyText Endpoints.
Local Open Scope string_scope.

Lemma contains_char (sep : ascii) (s : string) :
  PyStr.contains (String sep "") s = false <-> cut_last sep s = None.
Proof.
  induction s as [|c s IH]; simpl; [tauto|].
  rewrite (Ascii.eqb_sym sep c).
  destruct (cut_last sep s) as [[a b]|].
  - split; [|discriminate]. intros H.
    apply orb_false_iff in H. destruct H as [_ H].
    apply IH in H. discriminate.
  - destruct (Ascii.eqb c sep); simpl.
    + split; discriminate.
    + split; [reflexivity|]. intros _. now apply IH.
Qed.

Lemma cut_last_app (sep : ascii) (stem ext : string) :
  cut_last sep ext = None ->
  cut_last sep (stem ++ String sep ext) = Some (stem, ext).
Proof.
  intros H. induction stem as [|c stem IH]; simpl.
  - now rewrite H, Ascii.eqb_refl.
  - now rewrite IH.
Qed.

Lemma cut_last_Some (sep : ascii) (s before after : string) :
  cut_last sep s = Some (before, after) ->
  s = before ++ String sep after /\ cut_last sep after = None.
Proof.
  revert before. induction s as [|c s IH]; intros before; simpl; [easy|].
  destruct (cut_last sep s) as [[a b]|] eqn:E.
  - intros [= <- <-]. destruct (IH a eq_refl) as [-> Hb]. auto.
  - destruct (Ascii.eqb_spec c sep) as [->|_]; [|discriminate].
    intros [= <- <-]. auto.
Qed.

(** X14.  A file name is judged by what follows its last dot, case
    ignored: [allowed_file] of [stem.ext], where [ext] has no dot,
    tells whether the lowered [ext] is one of pdf, txt, docx, doc. *)
Theorem allowed_file_by_extension (stem ext : string) :
  PyStr.contains "." ext = false ->
  allowed_file (stem ++ "." ++ ext)
  = Returned (PySet.mem (PyStr.lower ext) ALLOWED_EXTENSIONS).
Proof.
  intros H. apply contains_char in H.
  pose proof (cut_last_app "." stem ext H) as Hcut.
  change (stem ++ "." ++ ext) with (stem ++ String "." ext).
  unfold allowed_file.
  destruct (PyStr.contains "." (stem ++ String "." ext)) eqn:Hdot.
  - unfold rsplit1. rewrite Hcut. reflexivity.
  - apply contains_char in Hdot. congruence.
Qed.

Lemma allowed_file_by_extension_witness :
  allowed_file "my.resume.PDF" = Returned true.
Proof.
  assert (H : PyStr.contains "." "PDF" = false) by reflexivity.
  exact (allowed_file_by_extension "my.resume" "PDF" H).
Defined.

(** X15.  [allowed_file] never raises (the index 1 is only read when
    the name has a dot); a name without a dot is refused, and an
    accepted name ends in a dot followed by an allowed extension, case
    ignored. *)
Theorem allowed_file_returns (name : string) :
  exists allowed,
    allowed_file name = Returned allowed
    /\ (PyStr.contains "." name = false -> allowed = false)
    /\ (allowed = true ->
        exists stem ext,
          name = stem ++ "." ++ ext
          /\ PyStr.contains "." ext = false
          /\ In (PyStr.lower ext) ALLOWED_EXTENSIONS).
Proof.
  unfold allowed_file.
  destruct (PyStr.contains "." name) eqn:Hdot.
  - destruct (cut_last "." name) as [[stem ext]|] eqn:Hcut.
    + unfold rsplit1. rewrite Hcut. cbn [index nth_error bind].
      eexists. split; [reflexivity|]. split; [discriminate|].
      intros Hmem. apply cut_last_Some in Hcut. destruct Hcut as [-> Hext].
      exists stem, ext. split; [reflexivity|].
      split; [now apply contains_char|now apply mem_In].
    + apply contains_char in Hcut. congruence.
  - exists false. split; [reflexivity|]. split; [reflexivity|discriminate].
Qed.

End AllowedFile.

(** ** White space *)

Section WhiteSpace.

Import PyText.
Local Open Scope string_scope.

Lemma lstrip_empty (s : string) : lstrip s = "" <-> all_space s = true.
Proof.
  induction s as [|c s IH]; simpl; [tauto|].
  destruct (is_space c); simpl; [exact IH|]. split; discriminate.
Qed.

Lemma rstrip_empty (s : string) : rstrip s = "" <-> all_space s = true.
Proof.
  induction s as [|c s IH]; simpl; [tauto|].
  destruct (rstrip s) as [|d r].
  - destruct (is_space c); simpl; [tauto|]. split; discriminate.
  - rewrite andb_true_iff. split; [discriminate|].
    intros [_ H]. apply IH in H. discriminate.
Qed.

Lemma lstrip_all_space (s : string) :
  all_space (lstrip s) = true <-> all_space s = true.
Proof.
  induction s as [|c s IH]; simpl; [tauto|].
  destruct (is_space c) eqn:E; simpl; [exact IH|].
  rewrite E. simpl. tauto.
Qed.

(** Stripping leaves nothing exactly when the string is made of white
    space only. *)
Lemma strip_empty (s : string) : strip s = "" <-> all_space s = true.
Proof. unfold strip. now rewrite rstrip_empty, lstrip_all_space. Qed.

End WhiteSpace.

(** ** The input checks of [analyze_resume] *)

Section ResumeInputs.

Import PyExn PyDict PyText Endpoints SkillAnalyzer.

Lemma blank_false (text : option string) :
  blank text = false ->
  exists s, text = Some s /\ s <> "" /\ strip s <> "".
Proof.
  destruct text as [s|]; [|discriminate]. simpl.
  rewrite orb_false_iff, !negb_false_iff. intros [H1 H2].
  exists s. split; [reflexivity|].
  split; intros E; [rewrite E in H1|rewrite E in H2]; discriminate.
Qed.

(** The branch on the upload stops with a rejection only. *)
Lemma read_resume_rejects
      (process_upload : string -> outcome (option string))
      (req : request) (stop : inputs) :
  read_resume process_upload req = Returned (inl stop) ->
  exists status error, stop = Rejected status error.
Proof.
  unfold read_resume.
  destruct (get "resume_file" (files req)) as [file|].
  - destruct (filename file) as [name|]; [|intros [= <-]; eauto].
    destruct (PyStr.truthy name); [|intros [= <-]; eauto].
    destruct (allowed_file name) as [[|]|e]; cbn [bind];
      [|intros [= <-]; eauto|discriminate].
    destruct (process_upload name); cbn [bind]; discriminate.
  - destruct (mem "resume_text" (form req)); [discriminate|].
    intros [= <-]; eauto.
Qed.

(** X16.  When the input checks of [analyze_resume] let a request
    through, the resume text and the job description both have a
    character that is not white space, the job description is the
    form's field, and the skill analysis that follows returns the
    comparison, not the flat profile. *)
Theorem accepted_inputs_are_not_blank
        (process_upload : string -> outcome (option string))
        (req : request) (resume_text job_description : string) :
  analyze_resume_inputs process_upload req
  = Returned (Accepted resume_text job_description) ->
  strip resume_text <> ""
  /\ all_space resume_text = false
  /\ strip job_description <> ""
  /\ all_space job_description = false
  /\ get "job_description" (form req) = Some job_description
  /\ exists c,
      analyze_skills resume_text (Some job_description) = Comparison c.
Proof.
  unfold analyze_resume_inputs.
  destruct (read_resume process_upload req) as [[rej|text]|e] eqn:Hread;
    cbn [bind]; [| |discriminate].
  - apply read_resume_rejects in Hread. destruct Hread as (st & msg & ->).
    discriminate.
  - destruct (blank text) eqn:Hr; [discriminate|].
    destruct (blank (Some (get_default "job_description" "" (form req))))
      eqn:Hj; [discriminate|].
    apply blank_false in Hr, Hj.
    destruct Hr as (r & -> & _ & Hr). destruct Hj as (j & [= <-] & Hj0 & Hj).
    intros [= <- <-].
    assert (Hspace : forall s, strip s <> "" -> all_space s = false).
    { intros s Hs. destruct (all_space s) eqn:E; [|reflexivity].
      apply strip_empty in E. congruence. }
    split; [exact Hr|]. split; [now apply Hspace|].
    split; [exact Hj|]. split; [now apply Hspace|]. split.
    + unfold get_default in *.
      destruct (get "job_description" (form req)); [reflexivity|].
      now elim Hj0.
    + now apply comparison_returned.
Qed.

Lemma accepted_inputs_are_not_blank_witness :
  strip " I know Python " <> "".
Proof.
  apply (accepted_inputs_are_not_blank
           (fun _ => Returned None)
           {| form := [("resume_text", " I know Python ");
                       ("job_description", "python, docker")];
              files := [] |}
           " I know Python " "python, docker").
  reflexivity.
Defined.

(** X17.  An upload stands in front of the text field: when the
    request has a file under [resume_file] whose name is refused by
    [allowed_file] (or is missing or empty), the answer is 400 "Invalid
    file format", whatever the form holds in [resume_text]. *)
Theorem refused_upload_hides_text
        (process_upload : string -> outcome (option string))
        (req : request) (file : upload) :
  get "resume_file" (files req) = Some file ->
  match filename file with
  | Some name => allowed_file name = Returned false
  | None => True
  end ->
  analyze_resume_inputs process_upload req
  = Returned (Rejected 400 "Invalid file format").
Proof.
  intros Hfile Hname. unfold analyze_resume_inputs, read_resume.
  rewrite Hfile. destruct (filename file) as [name|]; [|reflexivity].
  destruct (PyStr.truthy name); [|reflexivity].
  now rewrite Hname.
Qed.

Lemma refused_upload_hides_text_witness :
  analyze_resume_inputs
    (fun _ => Returned (Some "text of the file"))
    {| form := [("resume_text", "I know Python");
                ("job_description", "python")];
       files := [("resume_file", {| filename := Some "resume.exe" |})] |}
  = Returned (Rejected 400 "Invalid file format").
Proof.
  apply (refused_upload_hides_text _ _ {| filename := Some "resume.exe" |});
    reflexivity.
Defined.

End ResumeInputs.

(** ** [get_enhanced_llm_analysis], all outcomes *)

Section EnhancedAnalysis.

Import PyExn SkillAnalyzer App.

(** X18.  When the calls to the engine raise nothing outside
    [Exception], [get_enhanced_llm_analysis] returns a triple and does
    not raise.  Its error text is [None] exactly when both calls
    succeeded, and the results of the engine are then passed on
    unchanged; after a failure that is not a rate-limit error the two
    results are [None] and the error text is the text of the
    exception. *)
Theorem enhanced_analysis_returns
        (llm_engine : option LlmEngine)
        (resume_text job_description : string)
        (ats_score match_score : Q) (skill_analysis : analysis) :
  raises_only_Exception
    (llm_calls llm_engine resume_text job_description ats_score
               match_score skill_analysis) ->
  exists llm_analysis score_matrix error,
    get_enhanced_llm_analysis llm_engine resume_text job_description
                              ats_score match_score skill_analysis
    = Returned (llm_analysis, score_matrix, error)
    /\ (error = None
        <-> llm_calls llm_engine resume_text job_description ats_score
                      match_score skill_analysis
            = Returned (llm_analysis, score_matrix, None))
    /\ (forall e,
          llm_calls llm_engine resume_text job_description ats_score
                    match_score skill_analysis = Raised e ->
          is_ValueError e
          && PyStr.contains rate_limit_marker (exn_str e) = false ->
          llm_analysis = JNone /\ score_matrix = JNone
          /\ error = Some (exn_str e)).
Proof.
  intros Hcaught. unfold get_enhanced_llm_analysis.
  destruct (llm_calls llm_engine resume_text job_description ats_score
                      match_score skill_analysis)
    as [[[a m] err]|e] eqn:Hcalls.
  - exists a, m, err. split; [reflexivity|].
    assert (Herr : err = None).
    { unfold llm_calls in Hcalls.
      destruct (global_llm_engine llm_engine); cbn [bind] in Hcalls;
        [|discriminate].
      destruct (analyze_resume _ _ _); cbn [bind] in Hcalls; [|discriminate].
      destruct (analyze_score_matrix _ _ _ _ _ _); cbn [bind] in Hcalls;
        [|discriminate].
      now injection Hcalls as _ _ <-. }
    subst err. split; [tauto|]. intros e [=].
  - rewrite (Hcaught e eq_refl).
    destruct (is_ValueError e) eqn:Hve;
      [destruct (PyStr.contains rate_limit_marker (exn_str e)) eqn:Hm|].
    + do 3 eexists. split; [reflexivity|]. split.
      * split; discriminate.
      * intros e' [= <-]. rewrite Hve, Hm. discriminate.
    + do 3 eexists. split; [reflexivity|]. split.
      * split; discriminate.
      * intros e' [= <-] _. auto.
    + do 3 eexists. split; [reflexivity|]. split.
      * split; discriminate.
      * intros e' [= <-] _. auto.
Qed.

(** An engine whose first call cannot reach the service. *)
Lemma enhanced_analysis_returns_witness :
  exists llm_analysis score_matrix error,
    get_enhanced_llm_analysis
      (Some {| analyze_resume := fun _ _ =>
                 raise ConnectionError "connection refused";
               analyze_score_matrix := fun _ _ _ _ _ => Returned JNone |})
      "python" "python, go" 70 50 (Profile [])
    = Returned (llm_analysis, score_matrix, error)
    /\ error = Some "connection refused".
Proof.
  destruct (enhanced_analysis_returns
              (Some {| analyze_resume := fun _ _ =>
                         raise ConnectionError "connection refused";
                       analyze_score_matrix := fun _ _ _ _ _ =>
                         Returned JNone |})
              "python" "python, go" 70 50 (Profile []))
    as (a & m & err & Hres & _ & Hfail).
  - intros e [= <-]. reflexivity.
  - exists a, m, err. split; [exact Hres|].
    now destruct (Hfail _ eq_refl eq_refl) as (_ & _ & ->).
Defined.

End EnhancedAnalysis.

(** ** [generate_recommendations], pass by pass *)

Section RecommendationPasses.

Import SkillAnalyzer App Endpoints.

Lemma merge_fold_added (l items : list string) :
  exists added,
    fold_left merge_step l items = items ++ added
    /\ forall x, In x added -> In x l.
Proof.
  revert items. induction l as [|s l IH]; intros items; simpl.
  - exists []. split; [now rewrite app_nil_r|easy].
  - destruct (IH (merge_step items s)) as (added & -> & Hin).
    unfold merge_step. destruct (covered s items).
    + exists added. split; [reflexivity|]. intros x Hx. right. now apply Hin.
    + exists (s :: added). split; [now rewrite <- app_assoc|].
      intros x [<-|Hx]; [now left|right; now apply Hin].
Qed.

(** X19.  The last two passes only append action items.  The result
    has the strengths and the weaknesses that the score rules and the
    skill rules wrote, and its action items are theirs, in the same
    order, followed by items taken from the LLM improvements and from
    the four format recommendations; with a score of 80 or more no
    format recommendation is added. *)
Theorem later_passes_only_append
        (skill_analysis : analysis) (ats_score : Q)
        (llm_improvements : option (list string)) :
  let base := skill_rules skill_analysis
                (score_rules ats_score empty_recommendations) in
  exists r added,
    generate_recommendations skill_analysis ats_score llm_improvements
    = Some r
    /\ strengths r = strengths base
    /\ weaknesses r = weaknesses base
    /\ action_items r = action_items base ++ added
    /\ (forall x,
          In x added ->
          In x (improvements_of llm_improvements)
          \/ (ats_score < 80 /\ In x format_recommendations)).
Proof.
  intros base.
  assert (Hmerge :
            exists added,
              strengths (merge_improvements llm_improvements base)
              = strengths base
              /\ weaknesses (merge_improvements llm_improvements base)
                 = weaknesses base
              /\ action_items (merge_improvements llm_improvements base)
                 = action_items base ++ added
              /\ forall x, In x added ->
                           In x (improvements_of llm_improvements)).
  { destruct llm_improvements as [[|x l]|];
      try (exists []; cbn [merge_improvements nonempty];
           rewrite app_nil_r; repeat split; easy).
    cbn [merge_improvements nonempty strengths weaknesses action_items
         improvements_of].
    destruct (merge_fold_added (x :: l) (action_items base))
      as (added & E & Hin).
    exists added. repeat split; assumption. }
  destruct Hmerge as (added & Hs & Hw & Ha & Hin).
  set (merged := merge_improvements llm_improvements base) in *.
  exists (format_pass ats_score merged).
  unfold format_pass. destruct (Qltb ats_score 80) eqn:Hlt.
  - destruct (merge_fold_added format_recommendations
                               (action_items merged))
      as (added' & E & Hin').
    exists (added ++ added').
    split; [unfold generate_recommendations, generate_recommendations_body;
            rewrite run_passes; unfold format_pass; fold base; fold merged;
            rewrite Hlt; reflexivity|].
    cbn [strengths weaknesses action_items].
    rewrite format_fold_merge_fold, E, Ha, <- app_assoc.
    repeat split; try assumption.
    intros x Hx. apply in_app_or in Hx. destruct Hx as [Hx|Hx].
    + left. now apply Hin.
    + right. split; [now apply Qltb_lt|now apply Hin'].
  - exists added.
    split; [unfold generate_recommendations, generate_recommendations_body;
            rewrite run_passes; unfold format_pass; fold base; fold merged;
            rewrite Hlt; reflexivity|].
    repeat split; try assumption.
    intros x Hx. left. now apply Hin.
Qed.

(** X20.  With a score below 80, each of the four format
    recommendations is covered by an action item of the result: it is
    there itself, or an item that was there before contains it, case
    ignored. *)
Theorem format_recommendations_covered
        (skill_analysis : analysis) (ats_score : Q)
        (llm_improvements : option (list string)) :
  ats_score < 80 ->
  exists r,
    generate_recommendations skill_analysis ats_score llm_improvements
    = Some r
    /\ forall rec,
        In rec format_recommendations ->
        covered rec (action_items r) = true.
Proof.
  intros Hlt. apply Qltb_lt in Hlt.
  eexists. split.
  - unfold generate_recommendations, generate_recommendations_body.
    rewrite run_passes. reflexivity.
  - intros rec Hrec. unfold format_pass. rewrite Hlt.
    cbn [action_items]. rewrite format_fold_merge_fold.
    apply (merge_fold_covers format_recommendations). now left.
Qed.

Lemma format_recommendations_covered_witness :
  exists r,
    generate_recommendations (Profile []) 70
      (Some ["Please INCLUDE CLEAR SECTION HEADERS in the resume"])
    = Some r
    /\ covered "Include clear section headers" (action_items r) = true.
Proof.
  assert (Hlt : 70 < 80) by reflexivity.
  destruct (format_recommendations_covered (Profile []) 70
              (Some ["Please INCLUDE CLEAR SECTION HEADERS in the resume"])
              Hlt) as (r & Hr & Hcov).
  exists r. split; [exact Hr|]. apply Hcov. right. right. now left.
Defined.

End RecommendationPasses.

(** ** The basic enhancement of [enhance_resume] *)

Section BasicEnhancement.

Import PyExn PyText App Endpoints.
Local Open Scope string_scope.

Lemma ascii_lower_not_upper (c : ascii) :
  PyStr.in_range "A" "Z" (PyStr.ascii_lower c) = false.
Proof.
  destruct c as [[|] [|] [|] [|] [|] [|] [|] [|]]; vm_compute; reflexivity.
Qed.

Lemma lower_has_no_upper (s : string) : has_upper (PyStr.lower s) = false.
Proof.
  induction s as [|c s IH]; simpl; [reflexivity|].
  now rewrite ascii_lower_not_upper, IH.
Qed.

Lemma has_upper_app (a b : string) :
  has_upper (a ++ b) = has_upper a || has_upper b.
Proof.
  induction a as [|c a IH]; simpl; [reflexivity|].
  now rewrite IH, orb_assoc.
Qed.

(** A keyword with an upper-case letter is not a factor of a lowered
    text. *)
Lemma upper_keyword_not_found (keyword text : string) :
  has_upper keyword = true ->
  PyStr.contains keyword (PyStr.lower text) = false.
Proof.
  intros Hup. destruct (PyStr.contains keyword (PyStr.lower text)) eqn:E;
    [exfalso|reflexivity].
  apply contains_spec in E. destruct E as (pre & post & E).
  pose proof (lower_has_no_upper text) as Hlow.
  rewrite E, !has_upper_app, Hup in Hlow.
  rewrite orb_true_r in Hlow. discriminate.
Qed.

(** X21.  Without an LLM analysis, [enhance_resume] returns the resume
    text unchanged and four or five notes; the note on keywords is
    added exactly when some job keyword, as it is written, is not a
    factor of the lowered resume text.  The keyword itself is not
    lowered: a keyword with an upper-case letter always brings the
    note, even when the resume has the very same word. *)
Theorem basic_enhancement_notes
        (llm_analysis : json) (resume_text : string)
        (job_keywords : list string) :
  json_truthy llm_analysis = false ->
  enhancement llm_analysis resume_text job_keywords
  = Returned
      (JStr resume_text,
       strs (["Using basic enhancement due to LLM service limitations"]
               ++ (if keyword_absent resume_text job_keywords
                   then [keyword_note] else [])
               ++ ["Use clear section headers (Experience, Education, Skills)";
                   "Include quantifiable achievements";
                   "Add contact information and professional links"])%list)
  /\ (keyword_absent resume_text job_keywords = true
      <-> exists keyword,
          In keyword job_keywords
          /\ PyStr.contains keyword (PyStr.lower resume_text) = false)
  /\ (forall keyword,
        In keyword job_keywords ->
        has_upper keyword = true ->
        keyword_absent resume_text job_keywords = true).
Proof.
  intros Hfalse.
  assert (Hiff : keyword_absent resume_text job_keywords = true
                 <-> exists keyword,
                     In keyword job_keywords
                     /\ PyStr.contains keyword (PyStr.lower resume_text)
                        = false).
  { unfold keyword_absent. rewrite existsb_exists.
    split; intros (k & Hk & H); exists k; split; try exact Hk.
    - now apply negb_true_iff.
    - now apply negb_true_iff. }
  split; [|split; [exact Hiff|]].
  - unfold enhancement. rewrite Hfalse.
    now destruct (keyword_absent resume_text job_keywords).
  - intros keyword Hin Hup. apply Hiff. exists keyword.
    split; [exact Hin|now apply upper_keyword_not_found].
Qed.

Lemma basic_enhancement_notes_witness :
  keyword_absent "Five years of Python" ["Python"] = true.
Proof.
  assert (Hfalse : json_truthy JNone = false) by reflexivity.
  apply (proj2 (proj2 (basic_enhancement_notes JNone "Five years of Python"
                         ["Python"] Hfalse)) "Python").
  - now left.
  - reflexivity.
Defined.

End BasicEnhancement.

(** ** Arguments of the wrong type *)

Section WrongTypes.

Import PyExn PyDict SkillAnalyzer Dynamic.

(** X22.  For a resume that is a string, a job description that is
    falsy, of whatever type ([None], [False], 0, the empty string, list
    or dictionary), is treated as absent and the flat profile is
    returned; one that is truthy and not a string gives the empty
    mapping. *)
Theorem job_description_of_any_type (resume_text : string) (v : pyval) :
  (forall s, v <> PyStr s) ->
  Dynamic.analyze_skills (PyStr resume_text) v
  = Returned (if truthy v then empty_mapping
              else SkillAnalyzer.analyze_skills resume_text None).
Proof.
  intros H. unfold Dynamic.analyze_skills, analyze_skills_body.
  cbn [receiver_of_lower bind].
  destruct (truthy v) eqn:Ht; [|reflexivity].
  destruct v; try reflexivity. now elim (H s).
Qed.

Lemma job_description_of_any_type_witness :
  Dynamic.analyze_skills (PyStr "Python") (PyInt 7) = Returned empty_mapping.
Proof.
  assert (H : forall s, PyInt 7 <> PyStr s) by (intros s; discriminate).
  exact (job_description_of_any_type "Python" (PyInt 7) H).
Defined.

(** On a dictionary the first loop is the typed one and cannot raise. *)
Lemma priority_loop_on_dict (missing : dict (list string))
      (cats : list string) (acc : list string) :
  fold_left (Dynamic.add_priority (PySkillDict missing)) cats (Returned acc)
  = Returned (fold_left (SkillAnalyzer.add_priority missing) cats acc).
Proof.
  revert acc. induction cats as [|c cats IH]; intros acc; simpl;
    [reflexivity|].
  rewrite <- IH. f_equal.
  unfold Dynamic.add_priority, SkillAnalyzer.add_priority. simpl.
  unfold mem, get_default. destruct (get c missing); reflexivity.
Qed.

(** X23.  A limit that is neither an integer nor a boolean gives no
    suggestion at all, [None] included: the comparison of the length
    with the limit raises before the slice is taken. *)
Theorem suggestions_with_a_limit_of_another_type
        (missing : dict (list string)) (limit : pyval) :
  (forall z, limit <> PyInt z) ->
  (forall b, limit <> PyBool b) ->
  Dynamic.get_skill_suggestions (PySkillDict missing) limit = Returned [].
Proof.
  intros Hint Hbool.
  unfold Dynamic.get_skill_suggestions, get_skill_suggestions_body.
  rewrite priority_loop_on_dict. cbn [bind].
  destruct limit; try reflexivity; [now elim (Hbool b)|now elim (Hint z)].
Qed.

Lemma suggestions_with_a_limit_of_another_type_witness :
  Dynamic.get_skill_suggestions
    (PySkillDict [("cloud_devops", ["aws"])]) PyNone
  = Returned [].
Proof.
  apply suggestions_with_a_limit_of_another_type; intros; discriminate.
Defined.

(** Without a dictionary the first loop raises or adds nothing. *)
Lemma priority_loop_without_dict (missing : pyval) (cats : list string)
      (acc : outcome (list string)) :
  (forall d, missing <> PySkillDict d) ->
  (acc = Returned [] \/ exists e, acc = Raised e) ->
  fold_left (Dynamic.add_priority missing) cats acc = Returned []
  \/ exists e, fold_left (Dynamic.add_priority missing) cats acc = Raised e.
Proof.
  intros Hd. revert acc. induction cats as [|c cats IH]; intros acc Hacc;
    simpl; [exact Hacc|].
  apply IH. destruct Hacc as [->|(e & ->)];
    [|right; eexists; reflexivity].
  unfold Dynamic.add_priority. cbn [bind].
  destruct missing; cbn [contains_key bind raise];
    try solve [right; eexists; reflexivity].
  - destruct (PyStr.contains c s); cbn [subscript bind raise];
      [right; eexists; reflexivity|now left].
  - destruct (PySet.mem c l); cbn [subscript bind raise];
      [right; eexists; reflexivity|now left].
  - now elim (Hd d).
Qed.

(** X24.  A mapping of missing skills that is not a dictionary gives
    no suggestion, whatever the limit: the membership test, the
    subscript or the call of [keys] raises, or nothing was collected. *)
Theorem suggestions_without_a_dictionary (missing limit : pyval) :
  (forall d, missing <> PySkillDict d) ->
  Dynamic.get_skill_suggestions missing limit = Returned [].
Proof.
  intros Hd.
  pose proof (get_skill_suggestions_body_caught missing limit) as Hcaught.
  unfold Dynamic.get_skill_suggestions.
  destruct (get_skill_suggestions_body missing limit) as [l|e] eqn:Hbody.
  - cbn [try_except_Exception]. f_equal.
    unfold get_skill_suggestions_body in Hbody.
    destruct (priority_loop_without_dict missing priority_categories
                (Returned []) Hd (or_introl eq_refl)) as [E|(e & E)];
      rewrite E in Hbody; cbn [bind] in Hbody; [|discriminate].
    destruct (as_int limit) as [num|e]; cbn [bind] in Hbody; [|discriminate].
    destruct (_ <? num)%Z.
    + destruct missing; cbn [dict_keys bind raise] in Hbody;
        try discriminate. now elim (Hd d).
    + cbn [bind] in Hbody. injection Hbody as <-.
      unfold slice_to. destruct (0 <=? num)%Z; apply firstn_nil.
  - cbn [try_except_Exception]. now rewrite (Hcaught e eq_refl).
Qed.

Lemma suggestions_without_a_dictionary_witness :
  Dynamic.get_skill_suggestions (PyStrList ["aws"; "cloud_devops"]) (PyInt 5)
  = Returned [].
Proof.
  apply suggestions_without_a_dictionary. intros d. discriminate.
Defined.

End WrongTypes.
